(** * MadAgents session client: plan tracker and event handling

    A shallow embedding of the protocol-facing parts of the MadAgents web
    client: the plan-delta computation of [lib/plan.js]
    ([getUpdatedPlanSteps] and its helpers) and the state transitions of
    the [App] component of [components/CopyButtons.jsx]
    ([handleEventData], [connectEventSource], [reloadHistory],
    [confirmRewindEdit], [sendMessage]) together with the rewind
    affordance of [components/MessageList.jsx].

    Conventions of the embedding.
    - A JavaScript value whose dynamic type the code inspects is a
      [JsVal]; numbers are the integers (cursors, indices, millisecond
      timestamps), so [NaN] and fractions are not values of the model and
      a conversion that would yield [NaN] returns [None].
    - Strings are sequences of ASCII characters, which is what the
      backend sends for ids, statuses and names; [toLowerCase] is given on
      that alphabet.
    - [Date.parse] belongs to the host, not to the repository: it is a
      [Variable] of the section that embeds [lib/plan.js]. [None] stands
      for [NaN].
    - React state is threaded explicitly; a [useRef] cell is a field of
      the same record. An [async] function is cut at its [await fetch]:
      the part before it returns the request, the part after it takes the
      response. *)

From stdpp Require Import gmap strings list fin_maps pretty.
From Stdlib Require Import ZArith Ascii String.

Open Scope Z_scope.
Open Scope string_scope.

(** ** JavaScript values *)

Inductive JsVal :=
  | VUndef
  | VNull
  | VBool (b : bool)
  | VNum (n : Z)
  | VStr (s : string).

#[global] Instance JsVal_eq_dec : EqDecision JsVal.
Proof. solve_decision. Defined.

Module Js.

(** [v === null || v === undefined] *)
Definition nullish (v : JsVal) : bool :=
  match v with
  | VUndef | VNull => true
  | _ => false
  end.

(** [Boolean(v)], the test behind [!v], [v || d] and [v && w]. *)
Definition truthy (v : JsVal) : bool :=
  match v with
  | VUndef | VNull => false
  | VBool b => b
  | VNum n => negb (Z.eqb n 0)
  | VStr s => negb (String.eqb s "")
  end.

(** [String(v)] *)
Definition toString (v : JsVal) : string :=
  match v with
  | VUndef => "undefined"
  | VNull => "null"
  | VBool true => "true"
  | VBool false => "false"
  | VNum n => pretty n
  | VStr s => s
  end.

(** [typeof v === "number"] *)
Definition isNumber (v : JsVal) : bool :=
  match v with
  | VNum _ => true
  | _ => false
  end.

(** [typeof v === "string"] *)
Definition isString (v : JsVal) : bool :=
  match v with
  | VStr _ => true
  | _ => false
  end.

(** [a === b] *)
Definition strictEq (a b : JsVal) : bool := bool_decide (a = b).

(** [a ?? b] *)
Definition coalesce (a b : JsVal) : JsVal := if nullish a then b else a.

(** [a || b] *)
Definition or (a b : JsVal) : JsVal := if truthy a then a else b.

(** [a && b] *)
Definition and (a b : JsVal) : JsVal := if truthy a then b else a.

Definition lowerChar (c : ascii) : ascii :=
  let n := N_of_ascii c in
  if ((65 <=? n) && (n <=? 90))%N then ascii_of_N (n + 32) else c.

(** [s.toLowerCase()] *)
Fixpoint toLowerCase (s : string) : string :=
  match s with
  | EmptyString => EmptyString
  | String c r => String (lowerChar c) (toLowerCase r)
  end.

(** White space of [String.prototype.trim] within ASCII: TAB, LF, VT,
    FF, CR and SPACE. *)
Definition isSpace (c : ascii) : bool :=
  let n := N_of_ascii c in
  ((9 <=? n) && (n <=? 13) || (n =? 32))%N.

Fixpoint trimStart (s : string) : string :=
  match s with
  | EmptyString => EmptyString
  | String c r => if isSpace c then trimStart r else s
  end.

(** Drops trailing white space: a character is kept when something
    non-blank follows it or it is itself not blank. *)
Fixpoint trimEnd (s : string) : string :=
  match s with
  | EmptyString => EmptyString
  | String c r =>
      match trimEnd r with
      | EmptyString => if isSpace c then EmptyString else String c EmptyString
      | r' => String c r'
      end
  end.

(** [s.trim()] *)
Definition trim (s : string) : string := trimEnd (trimStart s).

End Js.

(** ** Plan tracker ([lib/plan.js]) *)

(** A step as it occurs in [plan.steps] and in [plan_meta_data.steps];
    a field the object lacks is [VUndef]. A [null] element of the array
    behaves like the step whose fields are all [VUndef], since every access
    is [step?.field]. *)
Record PlanStep := mkStep {
  id : JsVal;
  title : JsVal;
  status : JsVal;
  last_updated : JsVal;
}.

#[global] Instance PlanStep_eq_dec : EqDecision PlanStep.
Proof. solve_decision. Defined.

(** [plan] and [planMetaData]: [steps] is [None] when the property is not
    an array. *)
Record Plan := mkPlan { steps : option (list PlanStep) }.

(** [Array.isArray(plan?.steps) ? plan.steps : []] *)
Definition stepsOf (plan : option Plan) : list PlanStep :=
  match plan with
  | Some p => match steps p with Some l => l | None => [] end
  | None => []
  end.

Record PlanDelta := mkDelta {
  updatedSteps : list PlanStep;
  metaMap : gmap string Z;
  statusMap : gmap string string;
}.

Section PlanTracker.

(** [Date.parse]: the milliseconds of a date string, [None] for [NaN]. *)
Variable Date_parse : string → option Z.

Definition parsePlanMetaTimestamp (value : JsVal) : option Z :=
  if negb (Js.truthy value) then None
  else Date_parse (Js.toString value).

Definition normalizePlanStatus (value : JsVal) : string :=
  if Js.nullish value then ""
  else Js.toLowerCase (Js.toString value).

Definition buildPlanMetaMap (planMetaData : option Plan) : gmap string Z :=
  fold_left
    (λ (metaMap : gmap string Z) (step : PlanStep),
       let stepId := id step in
       if Js.nullish stepId then metaMap
       else match parsePlanMetaTimestamp (last_updated step) with
            | None => metaMap
            | Some updatedAt => <[Js.toString stepId := updatedAt]> metaMap
            end)
    (stepsOf planMetaData) ∅.

Definition buildPlanStatusMap (plan : option Plan) : gmap string string :=
  fold_left
    (λ (statusMap : gmap string string) (step : PlanStep),
       let stepId := id step in
       if Js.nullish stepId then statusMap
       else <[Js.toString stepId := normalizePlanStatus (status step)]> statusMap)
    (stepsOf plan) ∅.

(** The callback of [steps.filter] in [getUpdatedPlanSteps]. *)
Definition stepIsUpdated
    (metaMap : gmap string Z) (statusMap : gmap string string)
    (previousMetaMap : gmap string Z)
    (previousStatusMap : option (gmap string string))
    (step : PlanStep) : bool :=
  let stepId := id step in
  if Js.nullish stepId then false
  else
    let key := Js.toString stepId in
    match metaMap !! key with
    | None => false
    | Some current =>
        match previousMetaMap !! key with
        | None => true
        | Some previous =>
            if (current <=? previous)%Z then false
            else
              let previousStatus := previousStatusMap ≫= (λ m, m !! key) in
              let currentStatus := statusMap !! key in
              if bool_decide (previousStatus = Some "blocked")
                 && bool_decide (currentStatus = Some "pending")
              then false
              else true
        end
    end.

Definition getUpdatedPlanSteps
    (plan planMetaData : option Plan)
    (previousMetaMap : option (gmap string Z))
    (previousStatusMap : option (gmap string string)) : PlanDelta :=
  let steps := stepsOf plan in
  let metaMap := buildPlanMetaMap planMetaData in
  let statusMap := buildPlanStatusMap plan in
  match previousMetaMap with
  | None => mkDelta [] metaMap statusMap
  | Some previousMetaMap =>
      mkDelta
        (List.filter
           (stepIsUpdated metaMap statusMap previousMetaMap previousStatusMap)
           steps)
        metaMap statusMap
  end.

(** *** The two snapshots, read directly

    What a snapshot says about the step with key [k], stated on the
    arrays themselves rather than on the maps built from them: the
    entry that counts is the last one carrying that key. *)

Definition timestampEntry (k : string) (e : PlanStep) : option Z :=
  if Js.nullish (id e) then None
  else if String.eqb (Js.toString (id e)) k
       then parsePlanMetaTimestamp (last_updated e)
       else None.

Definition statusEntry (k : string) (e : PlanStep) : option string :=
  if Js.nullish (id e) then None
  else if String.eqb (Js.toString (id e)) k
       then Some (normalizePlanStatus (status e))
       else None.

(** Timestamp of step [k] in a snapshot's meta data, if it has a
    parseable one. *)
Definition timestampOf (planMetaData : option Plan) (k : string) : option Z :=
  last (omap (timestampEntry k) (stepsOf planMetaData)).

(** Normalised status of step [k] in a snapshot's plan. *)
Definition statusOf (plan : option Plan) (k : string) : option string :=
  last (omap (statusEntry k) (stepsOf plan)).

(** The delta as the two snapshots determine it: a step is reported when
    it has a key and a current timestamp and either had no timestamp
    before, or its timestamp grew and it did not go from blocked to
    pending. *)
Definition inDelta (prevPlan prevMeta plan planMetaData : option Plan)
    (step : PlanStep) : Prop :=
  Js.nullish (id step) = false ∧
  let k := Js.toString (id step) in
  ∃ c, timestampOf planMetaData k = Some c ∧
    (timestampOf prevMeta k = None ∨
     ∃ p, timestampOf prevMeta k = Some p ∧ (p < c)%Z ∧
          ¬ (statusOf prevPlan k = Some "blocked" ∧
             statusOf plan k = Some "pending")).

(** Step [k] has a timestamp in both snapshots and it grew. *)
Definition timestampIncreased (prevMeta planMetaData : option Plan)
    (k : string) : Prop :=
  ∃ p c, timestampOf prevMeta k = Some p ∧
         timestampOf planMetaData k = Some c ∧ (p < c)%Z.

(** Step [k] went from status [a] to status [b]. *)
Definition transition (a b : string) (prevPlan plan : option Plan)
    (k : string) : Prop :=
  statusOf prevPlan k = Some a ∧ statusOf plan k = Some b.

(** The delta between two snapshots, as [getUpdatedPlanSteps] computes it
    when handed the maps of the previous one. *)
Definition planDelta (prevPlan prevMeta plan planMetaData : option Plan)
    : list PlanStep :=
  updatedSteps
    (getUpdatedPlanSteps plan planMetaData
       (Some (buildPlanMetaMap prevMeta))
       (Some (buildPlanStatusMap prevPlan))).

End PlanTracker.

(** ** Numbers from strings *)

Module JsNumber.

Definition digitOf (c : ascii) : option Z :=
  let n := N_of_ascii c in
  if ((48 <=? n) && (n <=? 57))%N then Some (Z.of_N (n - 48)) else None.

Fixpoint digits (acc : Z) (s : string) : option Z :=
  match s with
  | EmptyString => Some acc
  | String c r =>
      match digitOf c with
      | Some d => digits (10 * acc + d) r
      | None => None
      end
  end.

Definition unsigned (s : string) : option Z :=
  match s with
  | EmptyString => None
  | _ => digits 0 s
  end.

(** [Number(s)] for a string: surrounding white space is dropped, the
    empty string is 0, and an optionally signed run of decimal digits is
    its value. Every other string is [None]: it denotes [NaN], an
    infinity, or a literal (fraction, exponent, radix prefix) that the
    integer cursors the client stores never take. *)
Definition ofString (s : string) : option Z :=
  match Js.trim s with
  | EmptyString => Some 0
  | String "-" r => Z.opp <$> unsigned r
  | String "+" r => unsigned r
  | t => unsigned t
  end.

(** [Number(v)]; [None] is [NaN]. *)
Definition ofVal (v : JsVal) : option Z :=
  match v with
  | VUndef => None
  | VNull => Some 0
  | VBool true => Some 1
  | VBool false => Some 0
  | VNum n => Some n
  | VStr s => ofString s
  end.

End JsNumber.

(** ** Messages, events and responses *)

Record AddContent := mkAddContent {
  plan : option Plan;
  plan_meta_data : option Plan;
  plan_update_steps : option (list PlanStep);
}.

Module Msg.
(** A message of the list the client renders. Properties beyond these
    five are not read by the code embedded here. *)
Record t := mk {
  name : JsVal;
  content : JsVal;
  add_content : option AddContent;
  message_index : JsVal;
  can_rewind_before : JsVal;
}.
End Msg.

(** [eventData], by its [event] tag. [messages] and [rewindable_indices]
    are [None] when the property is nullish (or, for the latter, falsy). *)
Inductive EventData :=
  | MessageUpdate (messages : option (list Msg.t))
  | HistoryReset (messages : option (list Msg.t))
  | RewindStatus (status : JsVal)
  | RewindUpdate (rewindable_indices : option (list JsVal))
  | ErrorEvent (error : JsVal)
  | Interrupted
  | Done
  | OtherEvent (event : string).

(** The [detail] property of a JSON body: absent or a primitive, or an
    object that may name the active run. *)
Inductive Detail :=
  | DetailVal (v : JsVal)
  | DetailObj (active_thread_id active_run_name : JsVal).

Module Body.
(** The JSON object of a response, with the properties the client
    reads. *)
Record t := mk {
  messages : option (list Msg.t);
  event_cursor : JsVal;
  rewind_status : JsVal;
  thread_id : JsVal;
  detail : Detail;
  error : JsVal;
  active_thread_id : JsVal;
  active_run_name : JsVal;
}.

End Body.

(** What [await res.json()] does. *)
Inductive JsonResult :=
  | JsonThrows (message : string)
  | JsonNull
  | JsonObject (b : Body.t).

(** What [await fetch(...)] does: it rejects, or resolves to a response. *)
Inductive FetchResult :=
  | Rejected (message : string)
  | Resolved (status : Z) (json : JsonResult).

(** [res.ok] *)
Definition ok (status : Z) : bool := (200 <=? status)%Z && (status <=? 299)%Z.

(** The requests the embedded functions send. *)
Inductive Request :=
  | GetHistory (thread_id : string) (force_refresh : bool)
  | GetRuns
  | PostChat (thread_id message : string)
  | PostRewind (thread_id : string) (message_index : JsVal) (new_message : string).

(** An open [EventSource] on [/events], by its query parameters. *)
Record EventSource := mkEventSource {
  es_thread_id : string;
  es_from_idx : string;
}.

Module ActiveRun.
Record t := mk { threadId : JsVal; name : JsVal }.
Definition none : t := mk VNull VNull.
End ActiveRun.

(** Message of the [TypeError] raised by reading a property of [null]. *)
Definition nullReadMessage (prop : string) : string :=
  "Cannot read properties of null (reading '" ++ prop ++ "')".

(** ** The [App] component ([components/CopyButtons.jsx]) *)

Module App.

(** The [useState] cells and [useRef] cells the embedded functions read
    or write, the browser's [localStorage], and the log of requests sent
    so far (most recent last). *)
Record State := mkState {
  messages : list Msg.t;
  selectedThreadId : option string;
  rewindEditIndex : JsVal;
  rewindError : string;
  isRewinding : bool;
  rewindStatusByThread : gmap string JsVal;
  loadingByThreadId : gmap string bool;
  pendingRunId : option string;
  activeRun : ActiveRun.t;
  error : JsVal;
  isHistoryLoading : bool;
  rewindTextRef : option string;
  eventSourceRef : option EventSource;
  eventCursorRef : Z;
  skipHistoryRef : bool;
  shouldRecalcAutoScrollRef : bool;
  streamErrorRef : bool;
  localStorage : gmap string string;
  requests : list Request;
}.

(** The state of a freshly mounted component with thread [sel]
    selected. *)
Definition initial (sel : option string) : State :=
  {| messages := [];
     selectedThreadId := sel;
     rewindEditIndex := VNull;
     rewindError := "";
     isRewinding := false;
     rewindStatusByThread := ∅;
     loadingByThreadId := ∅;
     pendingRunId := None;
     activeRun := ActiveRun.none;
     error := VStr "";
     isHistoryLoading := false;
     rewindTextRef := None;
     eventSourceRef := None;
     eventCursorRef := 0;
     skipHistoryRef := false;
     shouldRecalcAutoScrollRef := false;
     streamErrorRef := false;
     localStorage := ∅;
     requests := [] |}.

(** One setter per cell. *)
Definition setMessages (f : list Msg.t → list Msg.t) (st : State) : State :=
  mkState (f (messages st)) (selectedThreadId st) (rewindEditIndex st)
    (rewindError st) (isRewinding st) (rewindStatusByThread st)
    (loadingByThreadId st) (pendingRunId st) (activeRun st) (error st)
    (isHistoryLoading st) (rewindTextRef st) (eventSourceRef st)
    (eventCursorRef st) (skipHistoryRef st) (shouldRecalcAutoScrollRef st)
    (streamErrorRef st) (localStorage st) (requests st).

Definition setSelectedThreadId (v : option string) (st : State) : State :=
  mkState (messages st) v (rewindEditIndex st)
    (rewindError st) (isRewinding st) (rewindStatusByThread st)
    (loadingByThreadId st) (pendingRunId st) (activeRun st) (error st)
    (isHistoryLoading st) (rewindTextRef st) (eventSourceRef st)
    (eventCursorRef st) (skipHistoryRef st) (shouldRecalcAutoScrollRef st)
    (streamErrorRef st) (localStorage st) (requests st).

Definition setRewindEditIndex (v : JsVal) (st : State) : State :=
  mkState (messages st) (selectedThreadId st) v
    (rewindError st) (isRewinding st) (rewindStatusByThread st)
    (loadingByThreadId st) (pendingRunId st) (activeRun st) (error st)
    (isHistoryLoading st) (rewindTextRef st) (eventSourceRef st)
    (eventCursorRef st) (skipHistoryRef st) (shouldRecalcAutoScrollRef st)
    (streamErrorRef st) (localStorage st) (requests st).

Definition setRewindError (v : string) (st : State) : State :=
  mkState (messages st) (selectedThreadId st) (rewindEditIndex st)
    v (isRewinding st) (rewindStatusByThread st)
    (loadingByThreadId st) (pendingRunId st) (activeRun st) (error st)
    (isHistoryLoading st) (rewindTextRef st) (eventSourceRef st)
    (eventCursorRef st) (skipHistoryRef st) (shouldRecalcAutoScrollRef st)
    (streamErrorRef st) (localStorage st) (requests st).

Definition setIsRewinding (v : bool) (st : State) : State :=
  mkState (messages st) (selectedThreadId st) (rewindEditIndex st)
    (rewindError st) v (rewindStatusByThread st)
    (loadingByThreadId st) (pendingRunId st) (activeRun st) (error st)
    (isHistoryLoading st) (rewindTextRef st) (eventSourceRef st)
    (eventCursorRef st) (skipHistoryRef st) (shouldRecalcAutoScrollRef st)
    (streamErrorRef st) (localStorage st) (requests st).

Definition setRewindStatusByThread
    (f : gmap string JsVal → gmap string JsVal) (st : State) : State :=
  mkState (messages st) (selectedThreadId st) (rewindEditIndex st)
    (rewindError st) (isRewinding st) (f (rewindStatusByThread st))
    (loadingByThreadId st) (pendingRunId st) (activeRun st) (error st)
    (isHistoryLoading st) (rewindTextRef st) (eventSourceRef st)
    (eventCursorRef st) (skipHistoryRef st) (shouldRecalcAutoScrollRef st)
    (streamErrorRef st) (localStorage st) (requests st).

Definition setLoadingByThreadId
    (f : gmap string bool → gmap string bool) (st : State) : State :=
  mkState (messages st) (selectedThreadId st) (rewindEditIndex st)
    (rewindError st) (isRewinding st) (rewindStatusByThread st)
    (f (loadingByThreadId st)) (pendingRunId st) (activeRun st) (error st)
    (isHistoryLoading st) (rewindTextRef st) (eventSourceRef st)
    (eventCursorRef st) (skipHistoryRef st) (shouldRecalcAutoScrollRef st)
    (streamErrorRef st) (localStorage st) (requests st).

Definition setPendingRunId (v : option string) (st : State) : State :=
  mkState (messages st) (selectedThreadId st) (rewindEditIndex st)
    (rewindError st) (isRewinding st) (rewindStatusByThread st)
    (loadingByThreadId st) v (activeRun st) (error st)
    (isHistoryLoading st) (rewindTextRef st) (eventSourceRef st)
    (eventCursorRef st) (skipHistoryRef st) (shouldRecalcAutoScrollRef st)
    (streamErrorRef st) (localStorage st) (requests st).

Definition setActiveRun (f : ActiveRun.t → ActiveRun.t) (st : State) : State :=
  mkState (messages st) (selectedThreadId st) (rewindEditIndex st)
    (rewindError st) (isRewinding st) (rewindStatusByThread st)
    (loadingByThreadId st) (pendingRunId st) (f (activeRun st)) (error st)
    (isHistoryLoading st) (rewindTextRef st) (eventSourceRef st)
    (eventCursorRef st) (skipHistoryRef st) (shouldRecalcAutoScrollRef st)
    (streamErrorRef st) (localStorage st) (requests st).

Definition setError (v : JsVal) (st : State) : State :=
  mkState (messages st) (selectedThreadId st) (rewindEditIndex st)
    (rewindError st) (isRewinding st) (rewindStatusByThread st)
    (loadingByThreadId st) (pendingRunId st) (activeRun st) v
    (isHistoryLoading st) (rewindTextRef st) (eventSourceRef st)
    (eventCursorRef st) (skipHistoryRef st) (shouldRecalcAutoScrollRef st)
    (streamErrorRef st) (localStorage st) (requests st).

Definition setIsHistoryLoading (v : bool) (st : State) : State :=
  mkState (messages st) (selectedThreadId st) (rewindEditIndex st)
    (rewindError st) (isRewinding st) (rewindStatusByThread st)
    (loadingByThreadId st) (pendingRunId st) (activeRun st) (error st)
    v (rewindTextRef st) (eventSourceRef st)
    (eventCursorRef st) (skipHistoryRef st) (shouldRecalcAutoScrollRef st)
    (streamErrorRef st) (localStorage st) (requests st).

Definition setRewindText (v : option string) (st : State) : State :=
  mkState (messages st) (selectedThreadId st) (rewindEditIndex st)
    (rewindError st) (isRewinding st) (rewindStatusByThread st)
    (loadingByThreadId st) (pendingRunId st) (activeRun st) (error st)
    (isHistoryLoading st) v (eventSourceRef st)
    (eventCursorRef st) (skipHistoryRef st) (shouldRecalcAutoScrollRef st)
    (streamErrorRef st) (localStorage st) (requests st).

Definition setEventSource (v : option EventSource) (st : State) : State :=
  mkState (messages st) (selectedThreadId st) (rewindEditIndex st)
    (rewindError st) (isRewinding st) (rewindStatusByThread st)
    (loadingByThreadId st) (pendingRunId st) (activeRun st) (error st)
    (isHistoryLoading st) (rewindTextRef st) v
    (eventCursorRef st) (skipHistoryRef st) (shouldRecalcAutoScrollRef st)
    (streamErrorRef st) (localStorage st) (requests st).

Definition setEventCursor (v : Z) (st : State) : State :=
  mkState (messages st) (selectedThreadId st) (rewindEditIndex st)
    (rewindError st) (isRewinding st) (rewindStatusByThread st)
    (loadingByThreadId st) (pendingRunId st) (activeRun st) (error st)
    (isHistoryLoading st) (rewindTextRef st) (eventSourceRef st)
    v (skipHistoryRef st) (shouldRecalcAutoScrollRef st)
    (streamErrorRef st) (localStorage st) (requests st).

Definition setSkipHistory (v : bool) (st : State) : State :=
  mkState (messages st) (selectedThreadId st) (rewindEditIndex st)
    (rewindError st) (isRewinding st) (rewindStatusByThread st)
    (loadingByThreadId st) (pendingRunId st) (activeRun st) (error st)
    (isHistoryLoading st) (rewindTextRef st) (eventSourceRef st)
    (eventCursorRef st) v (shouldRecalcAutoScrollRef st)
    (streamErrorRef st) (localStorage st) (requests st).

Definition setShouldRecalcAutoScroll (v : bool) (st : State) : State :=
  mkState (messages st) (selectedThreadId st) (rewindEditIndex st)
    (rewindError st) (isRewinding st) (rewindStatusByThread st)
    (loadingByThreadId st) (pendingRunId st) (activeRun st) (error st)
    (isHistoryLoading st) (rewindTextRef st) (eventSourceRef st)
    (eventCursorRef st) (skipHistoryRef st) v
    (streamErrorRef st) (localStorage st) (requests st).

Definition setStreamError (v : bool) (st : State) : State :=
  mkState (messages st) (selectedThreadId st) (rewindEditIndex st)
    (rewindError st) (isRewinding st) (rewindStatusByThread st)
    (loadingByThreadId st) (pendingRunId st) (activeRun st) (error st)
    (isHistoryLoading st) (rewindTextRef st) (eventSourceRef st)
    (eventCursorRef st) (skipHistoryRef st) (shouldRecalcAutoScrollRef st)
    v (localStorage st) (requests st).

Definition setLocalStorage
    (f : gmap string string → gmap string string) (st : State) : State :=
  mkState (messages st) (selectedThreadId st) (rewindEditIndex st)
    (rewindError st) (isRewinding st) (rewindStatusByThread st)
    (loadingByThreadId st) (pendingRunId st) (activeRun st) (error st)
    (isHistoryLoading st) (rewindTextRef st) (eventSourceRef st)
    (eventCursorRef st) (skipHistoryRef st) (shouldRecalcAutoScrollRef st)
    (streamErrorRef st) (f (localStorage st)) (requests st).

(** [fetch] is called: the request joins the log. *)
Definition send (r : Request) (st : State) : State :=
  mkState (messages st) (selectedThreadId st) (rewindEditIndex st)
    (rewindError st) (isRewinding st) (rewindStatusByThread st)
    (loadingByThreadId st) (pendingRunId st) (activeRun st) (error st)
    (isHistoryLoading st) (rewindTextRef st) (eventSourceRef st)
    (eventCursorRef st) (skipHistoryRef st) (shouldRecalcAutoScrollRef st)
    (streamErrorRef st) (localStorage st) (requests st ++ [r]).

(** Statements of a handler run left to right. *)
Notation "st |> f" := (f st) (at level 45, left associativity, only parsing).

(** *** Values derived on each render *)

Definition currentThreadKey (st : State) : string :=
  default "-1" (selectedThreadId st).

Definition activeThreadId (st : State) : JsVal :=
  ActiveRun.threadId (activeRun st).

Definition isActiveHere (st : State) : bool :=
  Js.truthy
    (Js.and (activeThreadId st)
       (VBool (Js.strictEq (activeThreadId st) (VStr (currentThreadKey st))))).

Definition isAnyRunActive (st : State) : bool :=
  Js.truthy (activeThreadId st).

Definition isLoading (st : State) : bool :=
  default false (loadingByThreadId st !! currentThreadKey st)
  || isActiveHere st.

Definition canInterrupt (st : State) : bool :=
  isLoading st && negb (String.eqb (currentThreadKey st) "-1").

Definition blockNewMessages (st : State) : bool :=
  Js.truthy
    (Js.and (activeThreadId st)
       (VBool (negb (Js.strictEq (activeThreadId st)
                       (VStr (currentThreadKey st)))))).

Definition rewindDisabled (st : State) : bool :=
  isLoading st || blockNewMessages st.

Definition currentRewindStatus (st : State) : JsVal :=
  match selectedThreadId st with
  | Some sel =>
      if negb (String.eqb sel "") && negb (String.eqb sel "-1")
      then Js.or (default VUndef (rewindStatusByThread st !! sel))
                 (VStr "pending")
      else VNull
  | None => VNull
  end.

(** *** Cursor storage and per-thread loading flags *)

Definition getEventCursorKey (threadId : string) : string :=
  "madagents_event_cursor_" ++ threadId.

Definition loadStoredCursor (threadId : string) (st : State) : Z :=
  if String.eqb threadId "" then 0
  else
    let raw :=
      match localStorage st !! getEventCursorKey threadId with
      | Some s => VStr s
      | None => VNull
      end in
    default 0 (JsNumber.ofVal raw).

Definition storeCursor (threadId : string) (cursor : Z) (st : State) : State :=
  if String.eqb threadId "" then st
  else st |> setLocalStorage
               (<[getEventCursorKey threadId := Js.toString (VNum cursor)]>).

Definition setThreadLoading (threadId : string) (value : bool) (st : State)
    : State :=
  if String.eqb threadId "" then st
  else st |> setLoadingByThreadId
               (λ prev, if value then <[threadId := true]> prev
                        else delete threadId prev).

Definition moveThreadLoading (fromThreadId toThreadId : string) (st : State)
    : State :=
  if String.eqb fromThreadId "" || String.eqb toThreadId ""
     || String.eqb fromThreadId toThreadId
  then st
  else st |> setLoadingByThreadId
               (λ prev, if negb (default false (prev !! fromThreadId)) then prev
                        else <[toThreadId := true]> (delete fromThreadId prev)).

(** *** The per-thread event stream *)

Definition closeEventSource (st : State) : State :=
  st |> setEventSource None.

Definition connectEventSource (threadId : string) (fromCursor : Z)
    (st : State) : State :=
  if String.eqb threadId "" || String.eqb threadId "-1" then st
  else st |> closeEventSource
          |> setEventSource
               (Some (mkEventSource threadId
                        (Js.toString (VNum (Z.max 0 fromCursor))))).

Definition fetchRuns (st : State) : State := st |> send GetRuns.

(** [reportResponseError(res, fallbackMessage)] *)
Definition reportResponseError (status : Z) (json : JsonResult)
    (fallbackMessage : string) (st : State) : State :=
  let detail :=
    match json with
    | JsonObject data =>
        match Body.detail data with
        | DetailVal (VStr d) => d
        | _ => match Body.error data with
               | VStr e => e
               | _ => ""
               end
        end
    | JsonNull | JsonThrows _ => ""
    end in
  let message :=
    if negb (String.eqb detail "")
    then fallbackMessage ++ ": " ++ detail
    else fallbackMessage ++ " (" ++ Js.toString (VNum status) ++ ")" in
  st |> setError (VStr message).

(** [reloadHistory(threadId)] up to its [await fetch]. *)
Definition reloadHistory_begin (threadId : string) (st : State) : State :=
  if String.eqb threadId "" || String.eqb threadId "-1" then st
  else st |> closeEventSource
          |> setIsHistoryLoading true
          |> setSkipHistory false
          |> send (GetHistory threadId true).

(** The statements shared by [reloadHistory] and the history effect once
    the body [data] of an accepted response is at hand, from
    [Number(data.event_cursor)] to [connectEventSource]. *)
Definition resumeFromSnapshot (threadId : string) (data : Body.t)
    (connect : bool) (st : State) : State :=
  let cursor := JsNumber.ofVal (Body.event_cursor data) in
  let storedCursor := loadStoredCursor threadId st in
  let nextCursor := default storedCursor cursor in
  let st := st |> setEventCursor nextCursor
               |> storeCursor threadId nextCursor in
  if connect then st |> connectEventSource threadId nextCursor else st.

(** [reloadHistory(threadId)] from its [await fetch] on; the [finally]
    clause closes every path. *)
Definition reloadHistory_resume (threadId : string) (res : FetchResult)
    (st : State) : State :=
  match res with
  | Rejected e =>
      st |> setError (VStr e) |> setIsHistoryLoading false
  | Resolved status json =>
      if negb (ok status) then
        st |> reportResponseError status json "Failed to load history"
           |> setIsHistoryLoading false
      else
        match json with
        | JsonThrows e =>
            st |> setError (VStr e) |> setIsHistoryLoading false
        | JsonNull =>
            st |> setError (VStr (nullReadMessage "messages"))
               |> setIsHistoryLoading false
        | JsonObject data =>
            st |> setMessages (λ _, default [] (Body.messages data))
               |> setRewindStatusByThread
                    (<[threadId := Js.or (Body.rewind_status data)
                                         (VStr "pending")]>)
               |> setShouldRecalcAutoScroll true
               |> resumeFromSnapshot threadId data true
               |> setIsHistoryLoading false
        end
  end.

(** The history effect run when [selectedThreadId] changes
    ([loadHistory]), up to its [await fetch]. *)
Definition loadHistory_begin (st : State) : State :=
  match selectedThreadId st with
  | None => st |> closeEventSource |> setIsHistoryLoading false
  | Some sel =>
      if String.eqb sel "" then
        st |> closeEventSource |> setIsHistoryLoading false
      else if String.eqb sel "-1" then
        st |> closeEventSource |> setIsHistoryLoading false
           |> send (GetHistory "-1" false)
      else if skipHistoryRef st then
        let cursor := loadStoredCursor sel st in
        st |> setSkipHistory false
           |> setEventCursor cursor
           |> connectEventSource sel cursor
           |> setIsHistoryLoading false
      else
        st |> setIsHistoryLoading true |> send (GetHistory sel true)
  end.

(** [loadHistory] from its [await fetch] on, for the thread [sel] it was
    started for; [cancelled] is set once the effect has been cleaned
    up. *)
Definition loadHistory_resume (sel : string) (cancelled : bool)
    (res : FetchResult) (st : State) : State :=
  let finally (st : State) :=
    if cancelled then st else st |> setIsHistoryLoading false in
  match res with
  | Rejected e => st |> setError (VStr e) |> finally
  | Resolved status json =>
      if negb (ok status) then
        if (status =? 404)%Z then
          let detail :=
            match json with
            | JsonObject data =>
                match Body.detail data with
                | DetailVal (VStr d) => d
                | _ => ""
                end
            | _ => ""
            end in
          if String.eqb detail "Run not found" then
            st |> setSelectedThreadId (Some "-1")
               |> setMessages (λ _, [])
               |> setError (VStr "")
               |> finally
          else
            st |> setError
                    (VStr (if negb (String.eqb detail "")
                           then "Failed to load history: " ++ detail
                           else "Failed to load history ("
                                ++ Js.toString (VNum status) ++ ")"))
               |> finally
        else
          st |> reportResponseError status json "Failed to load history"
             |> finally
      else
        match json with
        | JsonThrows e => st |> setError (VStr e) |> finally
        | JsonNull =>
            st |> setError (VStr (nullReadMessage "messages")) |> finally
        | JsonObject data =>
            (if cancelled then st
             else st |> setMessages (λ _, default [] (Body.messages data))
                     |> setRewindStatusByThread
                          (<[sel := Js.or (Body.rewind_status data)
                                          (VStr "pending")]>)
                     |> setShouldRecalcAutoScroll true)
            |> resumeFromSnapshot sel data (negb cancelled)
            |> finally
        end
  end.

(** *** Events of the stream *)

(** The object built from each message of a [message_update] or
    [history_reset] event. *)
Definition normalizeMessage (m : Msg.t) : Msg.t :=
  Msg.mk (Js.or (Msg.name m) (VStr "assistant"))
         (Msg.content m) (Msg.add_content m)
         (Msg.message_index m) (Msg.can_rewind_before m).

(** The callback of [prev.map] for a [rewind_update] event. *)
Definition markRewindable (indices : list JsVal) (m : Msg.t) : Msg.t :=
  if Js.strictEq (Msg.name m) (VStr "user")
     && Js.isNumber (Msg.message_index m)
  then Msg.mk (Msg.name m) (Msg.content m) (Msg.add_content m)
              (Msg.message_index m)
              (VBool (bool_decide (Msg.message_index m ∈ indices)))
  else m.

(** The updater passed to [setActiveRun] by [interrupted] and [done]. *)
Definition releaseIfNamed (threadId : string) (prev : ActiveRun.t)
    : ActiveRun.t :=
  if Js.strictEq (ActiveRun.threadId prev) (VStr threadId)
  then ActiveRun.mk VNull VNull
  else prev.

Definition handleEventData (eventData : option EventData)
    (threadId : string) (st : State) : State :=
  match eventData with
  | None => st
  | Some eventData =>
      if String.eqb threadId "" then st
      else
        match eventData with
        | MessageUpdate messages =>
            let newMessages := map normalizeMessage (default [] messages) in
            st |> setMessages (λ prev, (prev ++ newMessages)%list)
        | HistoryReset messages =>
            let newMessages := map normalizeMessage (default [] messages) in
            st |> setMessages (λ _, newMessages)
               |> setShouldRecalcAutoScroll true
        | RewindStatus status =>
            let status := if Js.isString status then status
                          else VStr "pending" in
            st |> setRewindStatusByThread (<[threadId := status]>)
        | RewindUpdate rewindable_indices =>
            let indices := default [] rewindable_indices in
            st |> setMessages (map (markRewindable indices))
               |> setRewindStatusByThread (<[threadId := VStr "ready"]>)
        | ErrorEvent error =>
            st |> setStreamError true
               |> setError (Js.or error (VStr "Unknown error from server"))
               |> setThreadLoading threadId false
        | Interrupted =>
            st |> setThreadLoading threadId false
               |> setActiveRun (releaseIfNamed threadId)
        | Done =>
            let st := st |> setThreadLoading threadId false
                         |> setActiveRun (releaseIfNamed threadId)
                         |> fetchRuns in
            let st := if bool_decide (selectedThreadId st = Some threadId)
                      then st |> reloadHistory_begin threadId
                      else st in
            let st := if negb (streamErrorRef st)
                      then st |> setError (VStr "")
                      else st in
            st |> setStreamError false
        | OtherEvent _ => st
        end
  end.

(** *** Rewind and run requests *)

Definition startRewindEdit (message : option Msg.t) (st : State) : State :=
  match message with
  | None => st
  | Some message =>
      if negb (Js.isNumber (Msg.message_index message)) then st
      else
        st |> setRewindEditIndex (Msg.message_index message)
           |> setRewindError ""
           |> setRewindText
                (match rewindTextRef st with
                 | Some _ =>
                     Some (match Msg.content message with
                           | VStr c => c
                           | _ => ""
                           end)
                 | None => None
                 end)
  end.

Definition clearRewindText (st : State) : State :=
  st |> setRewindText (match rewindTextRef st with
                       | Some _ => Some ""
                       | None => None
                       end).

Definition cancelRewindEdit (st : State) : State :=
  st |> setRewindEditIndex VNull |> setRewindError "" |> clearRewindText.

(** [data?.detail ?? data ?? {}], read at [active_thread_id] and
    [active_run_name]; [data] is [null] when [res.json()] threw. *)
Definition conflictDetail (json : JsonResult) : JsVal * JsVal :=
  match json with
  | JsonObject data =>
      match Body.detail data with
      | DetailObj t n => (t, n)
      | DetailVal v =>
          if Js.nullish v
          then (Body.active_thread_id data, Body.active_run_name data)
          else (VUndef, VUndef)
      end
  | JsonNull | JsonThrows _ => (VUndef, VUndef)
  end.

(** The [res.status === 409] branch common to both requests, up to the
    text handed to the error setter: the active run is recorded when the
    response names one, and the text names the busy run. *)
Definition busyLabel (activeName activeThreadId : JsVal) : JsVal :=
  Js.or
    (Js.or (Js.and activeName (VStr (Js.trim (Js.toString activeName))))
           activeThreadId)
    (VStr "another run").

Definition busyMessage (activeName activeThreadId : JsVal) : string :=
  "Run " ++ Js.toString (busyLabel activeName activeThreadId)
         ++ " is already running.".

Definition recordConflict (json : JsonResult) (st : State)
    : State * string :=
  let detail := conflictDetail json in
  let activeThreadId := Js.coalesce (fst detail) VNull in
  let activeName := Js.coalesce (snd detail) VNull in
  let st := if Js.truthy activeThreadId
            then st |> setActiveRun
                         (λ _, ActiveRun.mk activeThreadId activeName)
            else st in
  (st, busyMessage activeName activeThreadId).

(** [confirmRewindEdit(message)] up to its [await fetch]. *)
Definition confirmRewindEdit_begin (message : option Msg.t) (st : State)
    : State :=
  match message with
  | None => st
  | Some message =>
      if negb (Js.isNumber (Msg.message_index message)) then st
      else if rewindDisabled st || isRewinding st then st
      else
        match selectedThreadId st with
        | None => st |> setRewindError "Select a run before rewinding."
        | Some threadId =>
            if String.eqb threadId "" || String.eqb threadId "-1" then
              st |> setRewindError "Select a run before rewinding."
            else
              let draft := default "" (rewindTextRef st) in
              let trimmed := Js.trim draft in
              if String.eqb trimmed "" then
                st |> setRewindError "Message cannot be empty."
              else
                st |> setIsRewinding true
                   |> setRewindError ""
                   |> setError (VStr "")
                   |> setStreamError false
                   |> send (PostRewind threadId
                              (Msg.message_index message) trimmed)
        end
  end.

(** [confirmRewindEdit] from its [await fetch] on, for the [threadId] it
    captured. On success it goes on to [reloadHistory(threadId)] (the
    test [threadId === selectedThreadId] compares two constants of the
    same closure) and is resumed once more by
    [confirmRewindEdit_finish]. *)
Definition confirmRewindEdit_resume (threadId : string) (res : FetchResult)
    (st : State) : State :=
  match res with
  | Rejected e => st |> setRewindError e |> setIsRewinding false
  | Resolved status json =>
      if (status =? 409)%Z then
        let (st, message) := recordConflict json st in
        st |> setRewindError message |> setIsRewinding false
      else if negb (ok status) then
        st |> reportResponseError status json "Failed to rewind"
           |> setIsRewinding false
      else
        st |> setRewindEditIndex VNull
           |> setRewindError ""
           |> clearRewindText
           |> setThreadLoading threadId true
           |> reloadHistory_begin threadId
  end.

Definition confirmRewindEdit_finish (threadId : string)
    (history : FetchResult) (st : State) : State :=
  st |> reloadHistory_resume threadId history |> setIsRewinding false.

(** [sendMessage(prompt)] up to its [await fetch]. *)
Definition sendMessage_begin (prompt : string) (st : State) : State :=
  if isLoading st then st
  else if blockNewMessages st then st
  else if String.eqb (Js.trim prompt) "" then st
  else
    let st := st |> setRewindEditIndex VNull
                 |> setRewindError ""
                 |> clearRewindText in
    let threadId := default "-1" (selectedThreadId st) in
    let userMessage := Msg.mk (VStr "user") (VStr prompt) None VUndef VUndef in
    st |> setMessages (λ prev, (prev ++ [userMessage])%list)
       |> setStreamError false
       |> setError (VStr "")
       |> setThreadLoading threadId true
       |> send (PostChat threadId prompt).

(** [sendMessage] from its [await fetch] on, for the [threadId] it
    captured ([isNewRun] is [threadId === "-1"]). Thread ids are
    strings: a [thread_id] of another type is taken by its text. *)
Definition sendMessage_resume (threadId : string) (res : FetchResult)
    (st : State) : State :=
  let isNewRun := String.eqb threadId "-1" in
  let catch (e : string) (st : State) :=
    st |> setError (VStr e) |> setThreadLoading threadId false in
  match res with
  | Rejected e => st |> catch e
  | Resolved status json =>
      if (status =? 409)%Z then
        let (st, message) := recordConflict json st in
        st |> setError (VStr message) |> setThreadLoading threadId false
      else if negb (ok status) then
        st |> catch ("Request failed with status "
                     ++ Js.toString (VNum status))
      else
        match json with
        | JsonThrows e => st |> catch e
        | _ =>
            let thread_id := match json with
                             | JsonObject data => Body.thread_id data
                             | _ => VUndef
                             end in
            let nextThreadId :=
              Js.toString (Js.or thread_id (VStr threadId)) in
            if isNewRun then
              st |> setSkipHistory true
                 |> setEventCursor 0
                 |> storeCursor nextThreadId 0
                 |> setSelectedThreadId (Some nextThreadId)
                 |> setPendingRunId (Some nextThreadId)
                 |> fetchRuns
                 |> moveThreadLoading threadId nextThreadId
            else st
        end
  end.

(** The textarea of the rewind editor is mounted and the user has left
    [text] in it. *)
Definition typeRewindText (text : string) (st : State) : State :=
  st |> setRewindText (Some text).



End App.

(** ** The message list ([components/MessageList.jsx]) *)

Module MessageList.

(** [rawContentText] of a message; a structured [content] is outside
    [JsVal] and a number or boolean prints as [JSON.stringify] does. *)
Definition rawContentText (m : Msg.t) : string :=
  match Msg.content m with
  | VStr c => c
  | VUndef | VNull => ""
  | v => Js.toString v
  end.

(** [CONTROL_CHAR_REGEX] of [lib/constants.js], on ASCII: U+0000 to
    U+0008, U+000B, U+000C, U+000E to U+001F and U+007F. *)
Definition isControlChar (c : ascii) : bool :=
  let n := N_of_ascii c in
  ((n <=? 8) || (n =? 11) || (n =? 12) || ((14 <=? n) && (n <=? 31))
   || (n =? 127))%N.

Fixpoint stripControlChars (s : string) : string :=
  match s with
  | EmptyString => EmptyString
  | String c r =>
      if isControlChar c then stripControlChars r
      else String c (stripControlChars r)
  end.

Definition contentText (m : Msg.t) : string :=
  stripControlChars (rawContentText m).

Definition hasContent (m : Msg.t) : bool :=
  negb (String.eqb (Js.trim (contentText m)) "").

Definition isUser (m : Msg.t) : bool :=
  Js.strictEq (Msg.name m) (VStr "user").

Definition isOrchestrator (m : Msg.t) : bool :=
  Js.strictEq (Msg.name m) (VStr "orchestrator").

Definition shouldAccordionWrap (m : Msg.t) : bool :=
  negb (isUser m) && negb (isOrchestrator m).

Definition canRewind (m : Msg.t) : bool :=
  isUser m && Js.truthy (Msg.can_rewind_before m).

Definition isEditingRewind (rewindEditIndex : JsVal) (m : Msg.t) : bool :=
  isUser m && Js.isNumber (Msg.message_index m)
  && Js.strictEq rewindEditIndex (Msg.message_index m).

(** The message is rendered with a Rewind button: it is not being
    edited, not an orchestrator message, has content, is shown as a bare
    bubble, and that bubble receives [showRewind = canRewind] (its
    [onRewind] is always a function). *)
Definition showsRewindButton (rewindEditIndex : JsVal) (m : Msg.t) : bool :=
  negb (isEditingRewind rewindEditIndex m)
  && negb (isOrchestrator m)
  && hasContent m
  && negb (shouldAccordionWrap m)
  && canRewind m.

(** The Rewind button is rendered and enabled: clicking it calls
    [onStartRewind(m)]. *)
Definition canStartRewind (st : App.State) (m : Msg.t) : bool :=
  showsRewindButton (App.rewindEditIndex st) m
  && negb (App.rewindDisabled st).

(** The "Rewind & run" button of the message being edited is rendered
    and enabled: clicking it calls [onConfirmRewind(m)]. *)
Definition canConfirmRewind (st : App.State) (m : Msg.t) : bool :=
  isEditingRewind (App.rewindEditIndex st) m
  && negb (App.isRewinding st || App.rewindDisabled st).

End MessageList.

(** ** Plan deltas along the message list ([decoratedMessages]) *)

Section Decorated.

Variable Date_parse : string → option Z.

(** [message?.add_content || {}] *)
Definition addContentOf (message : Msg.t) : AddContent :=
  default (mkAddContent None None None) (Msg.add_content message).

(** [Boolean(plan && Array.isArray(plan.steps))] *)
Definition hasSteps (plan : option Plan) : bool :=
  match plan with
  | Some p => match steps p with Some _ => true | None => false end
  | None => false
  end.

(** A message that carries both a plan and its meta data. *)
Definition planBearing (message : Msg.t) : bool :=
  hasSteps (plan (addContentOf message))
  && hasSteps (plan_meta_data (addContentOf message)).

(** [{...message, add_content: {...addContent, plan_update_steps}}] *)
Definition withPlanUpdates (message : Msg.t) (updatedSteps : list PlanStep)
    : Msg.t :=
  let addContent := addContentOf message in
  Msg.mk (Msg.name message) (Msg.content message)
    (Some (mkAddContent (plan addContent) (plan_meta_data addContent)
             (Some updatedSteps)))
    (Msg.message_index message) (Msg.can_rewind_before message).

(** The callback of [messages.map], with the two [let] variables it
    updates passed along. *)
Fixpoint decorate
    (lastPlanMetaMap : option (gmap string Z))
    (lastPlanStatusMap : option (gmap string string))
    (messages : list Msg.t) : list Msg.t :=
  match messages with
  | [] => []
  | message :: rest =>
      let addContent := addContentOf message in
      if negb (planBearing message) then
        message :: decorate lastPlanMetaMap lastPlanStatusMap rest
      else
        let d := getUpdatedPlanSteps Date_parse (plan addContent)
                   (plan_meta_data addContent)
                   lastPlanMetaMap lastPlanStatusMap in
        withPlanUpdates message (updatedSteps d)
        :: decorate (Some (metaMap d)) (Some (statusMap d)) rest
  end.

Definition decoratedMessages (messages : list Msg.t) : list Msg.t :=
  decorate None None messages.

End Decorated.

(** ** The event stream the client subscribes to *)

Module EventBus.





End EventBus.

(** ** Sample data *)

Module Sample.

(** A [Date.parse] that knows three ISO instants of 1 January 2024. *)
Definition Date_parse (s : string) : option Z :=
  if String.eqb s "2024-01-01T00:00:00Z" then Some 1704067200000
  else if String.eqb s "2024-01-01T00:01:00Z" then Some 1704067260000
  else if String.eqb s "2024-01-01T00:02:00Z" then Some 1704067320000
  else None.

Definition t0 : JsVal := VStr "2024-01-01T00:00:00Z".
Definition t1 : JsVal := VStr "2024-01-01T00:01:00Z".
Definition t2 : JsVal := VStr "2024-01-01T00:02:00Z".

Definition step (i : Z) (label st : string) : PlanStep :=
  mkStep (VNum i) (VStr label) (VStr st) VUndef.

Definition stamp (i : Z) (ts : JsVal) : PlanStep :=
  mkStep (VNum i) VUndef VUndef ts.

Definition planOf (l : list PlanStep) : option Plan :=
  Some (mkPlan (Some l)).

Definition userMessage (i : Z) (text : string) (rewindable : JsVal) : Msg.t :=
  Msg.mk (VStr "user") (VStr text) None (VNum i) rewindable.

(** A 409 response naming run "ttbar scan" of thread "t2". *)
Definition busy : FetchResult :=
  Resolved 409
    (JsonObject
       (Body.mk None VUndef VUndef VUndef
          (DetailObj (VStr "t2") (VStr " ttbar scan "))
          VUndef VUndef VUndef)).

(** A history snapshot of thread "t1": one rewindable user message,
    cursor 7, rewind status ready. *)
Definition history : FetchResult :=
  Resolved 200
    (JsonObject
       (Body.mk (Some [userMessage 0 "generate ttbar" (VBool true)])
          (VNum 7) (VStr "ready") VUndef (DetailVal VUndef)
          VUndef VUndef VUndef)).

(** Thread "t1" is selected and its history has arrived. *)
Definition loaded : App.State :=
  App.reloadHistory_resume "t1" history
    (App.reloadHistory_begin "t1" (App.initial (Some "t1"))).

(** Then a [rewind_status = pending] event arrives on the stream. *)
Definition pendingRewind : App.State :=
  App.handleEventData (Some (RewindStatus (VStr "pending"))) "t1" loaded.

(** Then the user opens the rewind editor on message 0 and types. *)
Definition editing : App.State :=
  App.typeRewindText "retry"
    (App.startRewindEdit (Some (userMessage 0 "generate ttbar" (VBool true)))
       pendingRewind).

(** The run of thread "t1" is active and the thread is loading. *)
Definition running : App.State :=
  App.setActiveRun (λ _, ActiveRun.mk (VStr "t1") (VStr "ttbar scan"))
    (App.setThreadLoading "t1" true loaded).


(** Two snapshots of a three-step plan. Step 1 was blocked and had no
    timestamp yet; step 2 changes status with its timestamp untouched;
    step 3 is new. *)
Definition prevPlanA : option Plan :=
  planOf [step 1 "Generate events" "blocked"; step 2 "Shower" "pending"].
Definition prevMetaA : option Plan := planOf [stamp 2 t0].
Definition planA : option Plan :=
  planOf [step 1 "Generate events" "pending"; step 2 "Shower" "in_progress";
          step 3 "Detector" "pending"].
Definition metaA : option Plan := planOf [stamp 1 t1; stamp 2 t0; stamp 3 t1].

(** Two snapshots in which every step is re-stamped: step 1 starts,
    step 2 is unblocked, step 3 is unchanged. *)
Definition prevPlanB : option Plan :=
  planOf [step 1 "Generate events" "pending"; step 2 "Shower" "blocked";
          step 3 "Detector" "pending"].
Definition prevMetaB : option Plan := planOf [stamp 1 t0; stamp 2 t0; stamp 3 t0].
Definition planB : option Plan :=
  planOf [step 1 "Generate events" "in_progress"; step 2 "Shower" "pending";
          step 3 "Detector" "pending"].
Definition metaB : option Plan := planOf [stamp 1 t1; stamp 2 t1; stamp 3 t0].

End Sample.

(** ** Further definitions *)

(** A string without white space. *)
Fixpoint noSpace (s : string) : Prop :=
  match s with
  | EmptyString => True
  | String c r => Js.isSpace c = false ∧ noSpace r
  end.


(** *** The handlers of the two event streams ([components/CopyButtons.jsx]) *)

Module Stream.

(** [event.data] of a server-sent message: absent or empty, not JSON, or
    the parsed value ([None] for JSON [null]). *)
Inductive Data (A : Type) :=
  | NoData
  | BadJson
  | Parsed (json : option A).
Arguments NoData {A}.
Arguments BadJson {A}.
Arguments Parsed {A} json.


(** A broadcast of [/events/active], by the two properties read. *)
Record Active := mkActive {
  active_thread_id : JsVal;
  active_run_name : JsVal;
}.

(** [es.onmessage] of the stream opened by [connectActiveEventSource]. *)
Definition onActiveMessage (data : Data Active) (st : App.State) : App.State :=
  match data with
  | NoData | BadJson => st
  | Parsed eventData =>
      let threadId :=
        Js.coalesce (from_option active_thread_id VUndef eventData) VNull in
      let name :=
        Js.coalesce (from_option active_run_name VUndef eventData) VNull in
      App.setActiveRun
        (λ prev,
           if Js.strictEq (ActiveRun.threadId prev) threadId
              && Js.strictEq (ActiveRun.name prev) name
           then prev
           else ActiveRun.mk threadId name)
        st
  end.

End Stream.

(** *** The selected thread across reloads ([components/CopyButtons.jsx]) *)

Module Selection.

Definition SELECTED_THREAD_ID_KEY : string := "madagents_selected_thread_id".

(** The initialiser of the [selectedThreadId] cell. *)
Definition initialSelectedThreadId (storage : gmap string string)
    : option string :=
  match storage !! SELECTED_THREAD_ID_KEY with
  | None => None
  | Some raw =>
      if String.eqb raw "" || String.eqb raw "null"
         || String.eqb raw "undefined"
      then None
      else Some raw
  end.

(** The effect that runs when [selectedThreadId] has changed. *)
Definition persistSelectedThreadId (st : App.State) : App.State :=
  match App.selectedThreadId st with
  | None => App.setLocalStorage (delete SELECTED_THREAD_ID_KEY) st
  | Some sel =>
      if String.eqb sel ""
      then App.setLocalStorage (delete SELECTED_THREAD_ID_KEY) st
      else App.setLocalStorage (<[SELECTED_THREAD_ID_KEY := sel]>) st
  end.

End Selection.

(** *** The message composer ([components/MessageComposer.jsx]) *)

Module Composer.


End Composer.

(** *** Plan badges ([lib/plan.js]) *)

Module PlanStats.

(** The summary returned by [getPlanStats]; counts are natural numbers. *)
Record t := mk {
  steps : list PlanStep;
  total : nat;
  doneCount : nat;
  inProgressCount : nat;
  skippedCount : nat;
  failedCount : nat;
  blockedCount : nat;
  completedCount : nat;
}.

(** The five counters the [forEach] of [getPlanStats] updates, in the
    order done, skipped, failed, blocked, in_progress. *)
Record Counters := mkCounters {
  c_done : nat;
  c_skipped : nat;
  c_failed : nat;
  c_blocked : nat;
  c_inProgress : nat;
}.

(** [String(step?.status || "").toLowerCase()] *)
Definition statusText (step : PlanStep) : string :=
  Js.toLowerCase (Js.toString (Js.or (status step) (VStr ""))).

Definition count (c : Counters) (step : PlanStep) : Counters :=
  let status := statusText step in
  if String.eqb status "done" then
    mkCounters (S (c_done c)) (c_skipped c) (c_failed c) (c_blocked c)
      (c_inProgress c)
  else if String.eqb status "in_progress" then
    mkCounters (c_done c) (c_skipped c) (c_failed c) (c_blocked c)
      (S (c_inProgress c))
  else if String.eqb status "skipped" then
    mkCounters (c_done c) (S (c_skipped c)) (c_failed c) (c_blocked c)
      (c_inProgress c)
  else if String.eqb status "failed" then
    mkCounters (c_done c) (c_skipped c) (S (c_failed c)) (c_blocked c)
      (c_inProgress c)
  else if String.eqb status "blocked" then
    mkCounters (c_done c) (c_skipped c) (c_failed c) (S (c_blocked c))
      (c_inProgress c)
  else c.

Definition getPlanStats (plan : option Plan) : t :=
  let steps := stepsOf plan in
  let c := fold_left count steps (mkCounters 0 0 0 0 0) in
  mk steps (List.length steps) (c_done c) (c_inProgress c) (c_skipped c)
    (c_failed c) (c_blocked c) (c_done c + c_skipped c).

(** A step whose status is one of the five that are counted. *)
Definition counted (step : PlanStep) : bool :=
  let status := statusText step in
  String.eqb status "done" || String.eqb status "in_progress"
  || String.eqb status "skipped" || String.eqb status "failed"
  || String.eqb status "blocked".





End PlanStats.

(** *** Display names ([lib/formatters.js]) *)

Module Formatters.

Section DisplayName.

(** [recipient_name_map.json], the object imported as
    [recipientNameMap]; the file is not among the sources. Only own
    properties with a string value can be chosen by
    [getRecipientDisplayName], so inherited properties need no entry. *)
Variable recipientNameMap : gmap string JsVal.


End DisplayName.

End Formatters.

(** *** Grouping of agent traces ([processedMessages]) *)

Module Grouping.

(** A decorated message together with the further properties of its
    [add_content] that the grouping reads; they count only when the
    message has an [add_content]. *)
Record Entry := mkEntry {
  msg : Msg.t;
  recipient : JsVal;
  exec_trace : JsVal;
  message : JsVal;
  reasoning : JsVal;
  reasoning_effort : JsVal;
  future_note : JsVal;
}.

Record Instruction := mkInstruction {
  i_recipient : JsVal;
  i_reasoning : JsVal;
  i_message : JsVal;
  i_reasoning_effort : JsVal;
  i_future_note : JsVal;
}.

Inductive Item :=
  | PlainMessage (message : Entry)
  | AgentOpGroup (agentName : JsVal) (traces : list Entry)
      (mainMessage : option Entry) (instruction : option Instruction).

(** A property [f] of [m.add_content || {}]. *)
Definition prop (f : Entry → JsVal) (m : Entry) : JsVal :=
  match Msg.add_content (msg m) with
  | Some _ => f m
  | None => VUndef
  end.

Definition isAgentName (name : JsVal) : bool :=
  Js.truthy name
  && negb (Js.strictEq name (VStr "user"))
  && negb (Js.strictEq name (VStr "assistant"))
  && negb (Js.strictEq name (VStr "orchestrator")).

Definition isOrchestratorToUser (recipient : JsVal) : bool :=
  Js.strictEq recipient (VStr "user")
  || Js.strictEq recipient (VStr "end_user")
  || Js.strictEq recipient (VStr "").

(** [m.add_content && m.add_content.exec_trace], as a condition. *)
Definition hasTrace (m : Entry) : bool := Js.truthy (prop exec_trace m).

(** The condition of the two [while] loops that collect traces. *)
Definition isTraceOf (agentName : JsVal) (m : Entry) : bool :=
  Js.strictEq (Msg.name (msg m)) agentName && hasTrace m.

(** The condition under which the next message becomes [mainMessage]. *)
Definition isMainOf (agentName : JsVal) (m : Entry) : bool :=
  Js.strictEq (Msg.name (msg m)) agentName && negb (hasTrace m).

(** The inner [while]: the traces taken and the messages left. *)
Fixpoint takeTraces (agentName : JsVal) (rest : list Entry)
    : list Entry * list Entry :=
  match rest with
  | [] => ([], [])
  | m :: tail =>
      if isTraceOf agentName m then
        let (traces, left) := takeTraces agentName tail in
        (m :: traces, left)
      else ([], rest)
  end.

Definition takeMain (agentName : JsVal) (rest : list Entry)
    : option Entry * list Entry :=
  match rest with
  | [] => (None, [])
  | m :: tail => if isMainOf agentName m then (Some m, tail) else (None, rest)
  end.

Definition instructionOf (m : Entry) : Instruction :=
  mkInstruction
    (Js.or (prop recipient m) (VStr ""))
    (Js.or (prop reasoning m) (VStr ""))
    (if Js.truthy (prop message m) then prop message m
     else Msg.content (msg m))
    (Js.or (prop reasoning_effort m) (VStr ""))
    (Js.or (prop future_note m) (VStr "")).

(** The orchestrator message [m] opens a group for the agent it
    addresses. *)
Definition opensGroup (m : Entry) : bool :=
  Js.strictEq (Msg.name (msg m)) (VStr "orchestrator")
  && negb (isOrchestratorToUser (Js.or (prop recipient m) (VStr "")))
  && isAgentName (Js.or (prop recipient m) (VStr "")).

(** The outer [while], one iteration per unit of [fuel], on the messages
    from index [i] on. *)
Fixpoint groupLoop (fuel : nat) (rest : list Entry) : list Item :=
  match fuel with
  | O => []
  | S fuel =>
      match rest with
      | [] => []
      | m :: tail =>
          if opensGroup m then
            let recipient := Js.or (prop recipient m) (VStr "") in
            let (traces, left) := takeTraces recipient tail in
            let (mainMessage, left) := takeMain recipient left in
            AgentOpGroup recipient traces mainMessage (Some (instructionOf m))
            :: groupLoop fuel left
          else if isAgentName (Msg.name (msg m)) then
            let agentName := Msg.name (msg m) in
            let (traces, left) := takeTraces agentName rest in
            let (mainMessage, left) := takeMain agentName left in
            AgentOpGroup agentName traces mainMessage None
            :: groupLoop fuel left
          else PlainMessage m :: groupLoop fuel tail
      end
  end.

(** Every iteration consumes a message, so one unit of fuel per message
    is enough. *)
Definition processedMessages (decoratedMessages : list Entry) : list Item :=
  groupLoop (List.length decoratedMessages) decoratedMessages.

Definition optionList (m : option Entry) : list Entry :=
  match m with
  | Some e => [e]
  | None => []
  end.

(** The messages an item stands for: a plain item for its message, a
    group for its traces and main message, preceded, when it has an
    instruction, by the orchestrator message the instruction was read
    from. *)
Definition covers (item : Item) (segment : list Entry) : Prop :=
  match item with
  | PlainMessage m => segment = [m]
  | AgentOpGroup agentName traces mainMessage None =>
      segment = (traces ++ optionList mainMessage)%list ∧ segment ≠ []
  | AgentOpGroup agentName traces mainMessage (Some instruction) =>
      ∃ m, segment = (m :: traces ++ optionList mainMessage)%list
           ∧ opensGroup m = true
           ∧ instruction = instructionOf m
           ∧ agentName = i_recipient instruction
  end.

(** The members of a group belong to its agent: traces carry an
    [exec_trace], the main message does not. *)
Definition wellGrouped (item : Item) : Prop :=
  match item with
  | PlainMessage m => opensGroup m = false ∧ isAgentName (Msg.name (msg m)) = false
  | AgentOpGroup agentName traces mainMessage _ =>
      isAgentName agentName = true
      ∧ Forall (λ m, Msg.name (msg m) = agentName ∧ hasTrace m = true) traces
      ∧ (∀ m, mainMessage = Some m →
           Msg.name (msg m) = agentName ∧ hasTrace m = false)
  end.

End Grouping.


(** How many steps have the normalised status [word]. *)
Definition withStatus (word : string) (steps : list PlanStep) : nat :=
  List.length
    (List.filter (λ step, String.eqb (PlanStats.statusText step) word) steps).

(** *** Further sample data *)

Module Sample2.

(** Two plan-bearing messages carrying the sample snapshots B. *)
Definition planned : Msg.t :=
  Msg.mk (VStr "planner") (VStr "plan")
    (Some (mkAddContent Sample.prevPlanB Sample.prevMetaB None))
    (VNum 1) VUndef.

Definition updated : Msg.t :=
  Msg.mk (VStr "plan_updater") (VStr "update")
    (Some (mkAddContent Sample.planB Sample.metaB None))
    (VNum 3) VUndef.

Definition question : Msg.t := Sample.userMessage 0 "generate ttbar" (VBool true).

Definition plain (m : Msg.t) : Grouping.Entry :=
  Grouping.mkEntry m VUndef VUndef VUndef VUndef VUndef VUndef.

(** The orchestrator instructs the plotter, which answers with one trace
    and a reply; the user then writes again. *)
Definition instruct : Grouping.Entry :=
  Grouping.mkEntry
    (Msg.mk (VStr "orchestrator") (VStr "plot it")
       (Some (mkAddContent None None None)) (VNum 1) VUndef)
    (VStr "plotter") VUndef VUndef (VStr "needs a plot") VUndef VUndef.

Definition trace : Grouping.Entry :=
  Grouping.mkEntry
    (Msg.mk (VStr "plotter") (VStr "call")
       (Some (mkAddContent None None None)) (VNum 2) VUndef)
    VUndef (VBool true) VUndef VUndef VUndef VUndef.

Definition reply : Grouping.Entry :=
  Grouping.mkEntry
    (Msg.mk (VStr "plotter") (VStr "done") None (VNum 3) VUndef)
    VUndef VUndef VUndef VUndef VUndef VUndef.

Definition conversation : list Grouping.Entry :=
  [plain question; instruct; trace; reply;
   plain (Sample.userMessage 4 "thanks" (VBool false))].

End Sample2.

(** * Properties *)

(** ** The JavaScript primitives on a few inputs *)

Example trim_inner_space : Js.trim "  ttbar scan  " = "ttbar scan".
Proof. reflexivity. Qed.

Example trim_blank : Js.trim (String "009" " ") = "".
Proof. reflexivity. Qed.

Example toLowerCase_status : Js.toLowerCase "In_Progress" = "in_progress".
Proof. reflexivity. Qed.

Example toString_id : Js.toString (VNum 12) = "12".
Proof. reflexivity. Qed.

Example number_of_stored_cursor :
  JsNumber.ofString " 42 " = Some 42%Z
  ∧ JsNumber.ofString "" = Some 0%Z
  ∧ JsNumber.ofString "-7" = Some (-7)%Z
  ∧ JsNumber.ofString "-" = None
  ∧ JsNumber.ofString "n/a" = None.
Proof. repeat split. Qed.

Example numeric_and_string_ids_share_a_key :
  buildPlanStatusMap
    (Sample.planOf [mkStep (VNum 1) VUndef (VStr "pending") VUndef;
                    mkStep (VStr "1") VUndef (VStr "DONE") VUndef])
  !! "1" = Some "done".
Proof. reflexivity. Qed.

(** ** Plan tracker *)

Section PlanTrackerFacts.

Variable Date_parse : string → option Z.

(** Folding the meta entries into a map: the last entry with key [k]
    decides, and without one the accumulator does. *)
Lemma fold_meta_lookup (l : list PlanStep) (m : gmap string Z) (k : string) :
  fold_left
    (λ (metaMap : gmap string Z) (step : PlanStep),
       if Js.nullish (id step) then metaMap
       else match parsePlanMetaTimestamp Date_parse (last_updated step) with
            | None => metaMap
            | Some updatedAt => <[Js.toString (id step) := updatedAt]> metaMap
            end) l m !! k
  = match last (omap (timestampEntry Date_parse k) l) with
    | Some t => Some t
    | None => m !! k
    end.
Proof.
  revert m. induction l as [|e l IH]; intros m; [reflexivity|].
  cbn [fold_left]. rewrite IH.
  change (omap (timestampEntry Date_parse k) (e :: l))
    with (match timestampEntry Date_parse k e with
          | Some t => t :: omap (timestampEntry Date_parse k) l
          | None => omap (timestampEntry Date_parse k) l
          end).
  unfold timestampEntry at 2.
  destruct (Js.nullish (id e)); [reflexivity|].
  destruct (String.eqb_spec (Js.toString (id e)) k) as [->|Hne].
  - destruct (parsePlanMetaTimestamp Date_parse (last_updated e)) as [u|];
      [|reflexivity].
    rewrite last_cons, lookup_insert_eq.
    destruct (last _); reflexivity.
  - destruct (parsePlanMetaTimestamp Date_parse (last_updated e)) as [u|];
      [|reflexivity].
    rewrite lookup_insert_ne by exact Hne. reflexivity.
Qed.

Lemma fold_status_lookup (l : list PlanStep) (m : gmap string string)
    (k : string) :
  fold_left
    (λ (statusMap : gmap string string) (step : PlanStep),
       if Js.nullish (id step) then statusMap
       else <[Js.toString (id step) := normalizePlanStatus (status step)]>
              statusMap) l m !! k
  = match last (omap (statusEntry k) l) with
    | Some t => Some t
    | None => m !! k
    end.
Proof.
  revert m. induction l as [|e l IH]; intros m; [reflexivity|].
  cbn [fold_left]. rewrite IH.
  change (omap (statusEntry k) (e :: l))
    with (match statusEntry k e with
          | Some t => t :: omap (statusEntry k) l
          | None => omap (statusEntry k) l
          end).
  unfold statusEntry at 2.
  destruct (Js.nullish (id e)); [reflexivity|].
  destruct (String.eqb_spec (Js.toString (id e)) k) as [->|Hne].
  - rewrite last_cons, lookup_insert_eq. destruct (last _); reflexivity.
  - rewrite lookup_insert_ne by exact Hne. reflexivity.
Qed.

(** The map built from a snapshot's meta data holds, at each key, the
    timestamp the snapshot gives that step. *)
Lemma lookup_buildPlanMetaMap (planMetaData : option Plan) (k : string) :
  buildPlanMetaMap Date_parse planMetaData !! k
  = timestampOf Date_parse planMetaData k.
Proof.
  unfold buildPlanMetaMap, timestampOf.
  rewrite fold_meta_lookup, lookup_empty.
  destruct (last _); reflexivity.
Qed.

Lemma lookup_buildPlanStatusMap (plan : option Plan) (k : string) :
  buildPlanStatusMap plan !! k = statusOf plan k.
Proof.
  unfold buildPlanStatusMap, statusOf.
  rewrite fold_status_lookup, lookup_empty.
  destruct (last _); reflexivity.
Qed.

(** A timestamp read off a snapshot comes from one of its entries. *)
Lemma timestampOf_entry (planMetaData : option Plan) (k : string) (c : Z) :
  timestampOf Date_parse planMetaData k = Some c →
  ∃ e, e ∈ stepsOf planMetaData ∧ Js.nullish (id e) = false ∧
       Js.toString (id e) = k ∧
       parsePlanMetaTimestamp Date_parse (last_updated e) = Some c.
Proof.
  unfold timestampOf. intros H.
  apply last_Some in H as [l' Hl'].
  assert (c ∈ omap (timestampEntry Date_parse k) (stepsOf planMetaData))
    as Hin by (rewrite Hl'; set_solver).
  apply list_elem_of_omap in Hin as (e & He & Hc).
  exists e. split; [exact He|].
  unfold timestampEntry in Hc.
  destruct (Js.nullish (id e)); [discriminate|].
  destruct (String.eqb_spec (Js.toString (id e)) k); [|discriminate].
  auto.
Qed.

Lemma statusOf_entry (plan : option Plan) (k st : string) :
  statusOf plan k = Some st →
  ∃ e, e ∈ stepsOf plan ∧ Js.nullish (id e) = false ∧
       Js.toString (id e) = k ∧ normalizePlanStatus (status e) = st.
Proof.
  unfold statusOf. intros H.
  apply last_Some in H as [l' Hl'].
  assert (st ∈ omap (statusEntry k) (stepsOf plan))
    as Hin by (rewrite Hl'; set_solver).
  apply list_elem_of_omap in Hin as (e & He & Hc).
  exists e. split; [exact He|].
  unfold statusEntry in Hc.
  destruct (Js.nullish (id e)); [discriminate|].
  destruct (String.eqb_spec (Js.toString (id e)) k); [|discriminate].
  split; [reflexivity|]. split; [assumption|]. congruence.
Qed.

(** The filter callback, run on the maps of two snapshots, decides the
    delta the snapshots determine. *)
Lemma stepIsUpdated_inDelta (prevPlan prevMeta plan planMetaData : option Plan)
    (step : PlanStep) :
  stepIsUpdated
    (buildPlanMetaMap Date_parse planMetaData) (buildPlanStatusMap plan)
    (buildPlanMetaMap Date_parse prevMeta)
    (Some (buildPlanStatusMap prevPlan)) step = true
  ↔ inDelta Date_parse prevPlan prevMeta plan planMetaData step.
Proof.
  unfold stepIsUpdated, inDelta. cbn [mbind option_bind].
  rewrite !lookup_buildPlanMetaMap, !lookup_buildPlanStatusMap.
  destruct (Js.nullish (id step)); [split; [discriminate|intros [? _]; discriminate]|].
  set (k := Js.toString (id step)).
  destruct (timestampOf Date_parse planMetaData k) as [c|];
    [|split; [discriminate|intros (_ & c & ? & _); discriminate]].
  destruct (timestampOf Date_parse prevMeta k) as [p|];
    [|split; [intros _; split; [reflexivity|]; exists c; auto | reflexivity]].
  destruct (Z.leb_spec c p) as [Hle|Hlt].
  - split; [discriminate|].
    intros (_ & c' & [= <-] & [? | (p' & [= <-] & ? & _)]); [discriminate|lia].
  - destruct (bool_decide_reflect (statusOf prevPlan k = Some "blocked"))
      as [Hb|Hb];
    destruct (bool_decide_reflect (statusOf plan k = Some "pending"))
      as [Hp|Hp]; cbn [andb].
    + split; [discriminate|].
      intros (_ & c' & _ & [? | (p' & _ & _ & Hn)]); [discriminate|].
      exfalso. apply Hn. auto.
    + split; [|reflexivity]. intros _. split; [reflexivity|].
      exists c. split; [reflexivity|]. right. exists p. intuition.
    + split; [|reflexivity]. intros _. split; [reflexivity|].
      exists c. split; [reflexivity|]. right. exists p. intuition.
    + split; [|reflexivity]. intros _. split; [reflexivity|].
      exists c. split; [reflexivity|]. right. exists p. intuition.
Qed.

Lemma elem_of_planDelta (prevPlan prevMeta plan planMetaData : option Plan)
    (step : PlanStep) :
  step ∈ planDelta Date_parse prevPlan prevMeta plan planMetaData
  ↔ step ∈ stepsOf plan
    ∧ inDelta Date_parse prevPlan prevMeta plan planMetaData step.
Proof.
  unfold planDelta, getUpdatedPlanSteps. cbn [updatedSteps].
  rewrite list_elem_of_In, filter_In, <- list_elem_of_In.
  rewrite stepIsUpdated_inDelta. reflexivity.
Qed.

Lemma planDelta_sublist (prevPlan prevMeta plan planMetaData : option Plan) :
  planDelta Date_parse prevPlan prevMeta plan planMetaData `sublist_of` stepsOf plan.
Proof.
  unfold planDelta, getUpdatedPlanSteps. cbn [updatedSteps].
  generalize (stepIsUpdated (buildPlanMetaMap Date_parse planMetaData)
                (buildPlanStatusMap plan)
                (buildPlanMetaMap Date_parse prevMeta)
                (Some (buildPlanStatusMap prevPlan))).
  intros f. induction (stepsOf plan) as [|x l IH]; cbn [List.filter].
  - constructor.
  - destruct (f x); [apply sublist_skip | apply sublist_cons]; exact IH.
Qed.

(** C2, as amended. Between two plan-bearing snapshots the delta is a
    sub-list of the current plan's steps, in plan order, and a step is in
    it exactly when it has an id, its id has a parseable timestamp in the
    current meta data, and either that id had no timestamp in the
    previous snapshot (a step reported for the first time) or the
    timestamp grew and the step did not go from blocked to pending. *)
Theorem plan_delta_characterised
    (prevPlan prevMeta plan planMetaData : option Plan) :
  planDelta Date_parse prevPlan prevMeta plan planMetaData
    `sublist_of` stepsOf plan
  ∧ ∀ step,
      step ∈ planDelta Date_parse prevPlan prevMeta plan planMetaData
      ↔ step ∈ stepsOf plan
        ∧ Js.nullish (id step) = false
        ∧ ∃ c, timestampOf Date_parse planMetaData (Js.toString (id step))
               = Some c
             ∧ (timestampOf Date_parse prevMeta (Js.toString (id step)) = None
                ∨ (timestampIncreased Date_parse prevMeta planMetaData
                     (Js.toString (id step))
                   ∧ ¬ transition "blocked" "pending" prevPlan plan
                         (Js.toString (id step)))).
Proof.
  split; [apply planDelta_sublist|].
  intros step. rewrite elem_of_planDelta.
  unfold inDelta, timestampIncreased, transition.
  split.
  - intros (Hin & Hid & c & Hc & Hprev).
    split; [exact Hin|]. split; [exact Hid|].
    exists c. split; [exact Hc|].
    destruct Hprev as [Hn | (p & Hp & Hlt & Hnot)]; [left; exact Hn|].
    right. split; [exists p, c; auto | exact Hnot].
  - intros (Hin & Hid & c & Hc & Hprev).
    split; [exact Hin|]. split; [exact Hid|].
    exists c. split; [exact Hc|].
    destruct Hprev as [Hn | ((p & c' & Hp & Hc' & Hlt) & Hnot)];
      [left; exact Hn|].
    right. exists p. rewrite Hc in Hc'. injection Hc' as <-. auto.
Qed.

(** C3, as amended. For a step of the current plan that has an id: if it
    went from blocked to pending and had a timestamp in the previous
    snapshot, it is not in the delta; if it went from pending to
    in_progress, it is in the delta exactly when its id has a current
    timestamp that is new or larger than the previous one. *)
Theorem plan_delta_transitions
    (prevPlan prevMeta plan planMetaData : option Plan) (step : PlanStep) :
  step ∈ stepsOf plan →
  Js.nullish (id step) = false →
  let k := Js.toString (id step) in
  let delta := planDelta Date_parse prevPlan prevMeta plan planMetaData in
  (transition "blocked" "pending" prevPlan plan k →
   is_Some (timestampOf Date_parse prevMeta k) →
   step ∉ delta)
  ∧ (transition "pending" "in_progress" prevPlan plan k →
     (step ∈ delta
      ↔ ∃ c, timestampOf Date_parse planMetaData k = Some c
           ∧ (timestampOf Date_parse prevMeta k = None
              ∨ timestampIncreased Date_parse prevMeta planMetaData k))).
Proof.
  intros Hin Hid k delta. subst delta.
  split.
  - intros Htr [p Hp] Hd.
    apply elem_of_planDelta in Hd as (_ & _ & c & _ & Hprev).
    fold k in Hprev.
    destruct Hprev as [Hn | (p' & _ & _ & Hnot)]; [congruence|].
    apply Hnot. exact Htr.
  - intros [Hprev Hcur]. rewrite elem_of_planDelta.
    unfold inDelta, timestampIncreased. fold k.
    split.
    + intros (_ & _ & c & Hc & Hp). exists c. split; [exact Hc|].
      destruct Hp as [Hn | (p & Hp & Hlt & _)]; [left; exact Hn|].
      right. exists p, c. auto.
    + intros (c & Hc & Hp). split; [exact Hin|]. split; [exact Hid|].
      exists c. split; [exact Hc|].
      destruct Hp as [Hn | (p & c' & Hp & Hc' & Hlt)]; [left; exact Hn|].
      right. exists p. rewrite Hc in Hc'. injection Hc' as <-.
      split; [exact Hp|]. split; [exact Hlt|].
      intros [Hb _]. congruence.
Qed.

(** C10. Without a previous snapshot the delta is empty; and whatever
    the previous maps are, a step in the delta has a non-null id, and the
    meta data holds an entry with that id whose [last_updated] parses. *)
Theorem plan_delta_needs_id_and_timestamp :
  (∀ plan planMetaData previousStatusMap,
      updatedSteps
        (getUpdatedPlanSteps Date_parse plan planMetaData None
           previousStatusMap) = [])
  ∧ (∀ plan planMetaData previousMetaMap previousStatusMap step,
      step ∈ updatedSteps
               (getUpdatedPlanSteps Date_parse plan planMetaData
                  previousMetaMap previousStatusMap) →
      id step ≠ VNull ∧ id step ≠ VUndef
      ∧ ∃ entry ts,
          entry ∈ stepsOf planMetaData
          ∧ id entry ≠ VNull ∧ id entry ≠ VUndef
          ∧ Js.toString (id entry) = Js.toString (id step)
          ∧ parsePlanMetaTimestamp Date_parse (last_updated entry)
            = Some ts).
Proof.
  split; [reflexivity|].
  intros plan planMetaData [previousMetaMap|] previousStatusMap step;
    unfold getUpdatedPlanSteps; cbn [updatedSteps];
    [|intros H; inversion H].
  rewrite list_elem_of_In, filter_In. intros [_ Hf].
  unfold stepIsUpdated in Hf.
  destruct (Js.nullish (id step)) eqn:Hid; [discriminate|].
  rewrite lookup_buildPlanMetaMap in Hf.
  destruct (timestampOf Date_parse planMetaData (Js.toString (id step)))
    as [c|] eqn:Hc; [|discriminate].
  apply timestampOf_entry in Hc as (e & He & Hne & Hk & Hts).
  assert (∀ v, Js.nullish v = false → v ≠ VNull ∧ v ≠ VUndef) as Hnn
    by (intros []; cbn; intros; split; congruence).
  destruct (Hnn _ Hid), (Hnn _ Hne).
  split; [assumption|]. split; [assumption|].
  exists e, c. auto.
Qed.

End PlanTrackerFacts.

(** C2, counterexample. In the sample snapshots A the delta holds step 3,
    whose timestamp did not increase (it had none before), and step 1,
    which went from blocked to pending. *)
Lemma plan_delta_not_only_increases :
  let delta := planDelta Sample.Date_parse Sample.prevPlanA Sample.prevMetaA
                 Sample.planA Sample.metaA in
  (Sample.step 3 "Detector" "pending" ∈ delta
   ∧ ¬ timestampIncreased Sample.Date_parse Sample.prevMetaA Sample.metaA "3")
  ∧ (Sample.step 1 "Generate events" "pending" ∈ delta
     ∧ transition "blocked" "pending" Sample.prevPlanA Sample.planA "1").
Proof.
  cbv zeta.
  replace (planDelta _ _ _ _ _)
    with [Sample.step 1 "Generate events" "pending";
          Sample.step 3 "Detector" "pending"] by (vm_compute; reflexivity).
  split; split.
  - set_solver.
  - intros (p & c & Hp & _). vm_compute in Hp. discriminate.
  - set_solver.
  - split; vm_compute; reflexivity.
Qed.

(** C3, counterexample. In the sample snapshots A step 1 went from blocked
    to pending and is in the delta, and step 2 went from pending to
    in_progress and is not. *)
Lemma plan_delta_transition_rules_fail :
  let delta := planDelta Sample.Date_parse Sample.prevPlanA Sample.prevMetaA
                 Sample.planA Sample.metaA in
  (transition "blocked" "pending" Sample.prevPlanA Sample.planA "1"
   ∧ Sample.step 1 "Generate events" "pending" ∈ delta)
  ∧ (transition "pending" "in_progress" Sample.prevPlanA Sample.planA "2"
     ∧ Sample.step 2 "Shower" "in_progress" ∈ stepsOf Sample.planA
     ∧ Sample.step 2 "Shower" "in_progress" ∉ delta).
Proof.
  cbv zeta.
  replace (planDelta _ _ _ _ _)
    with [Sample.step 1 "Generate events" "pending";
          Sample.step 3 "Detector" "pending"] by (vm_compute; reflexivity).
  split; [split|split; [|split]].
  - split; vm_compute; reflexivity.
  - set_solver.
  - split; vm_compute; reflexivity.
  - cbn. set_solver.
  - intros H. apply list_elem_of_In in H. cbn in H.
    destruct H as [H|[H|[]]]; inversion H.
Qed.

(** [decoratedMessages] hands each plan-bearing message the maps of the
    plan-bearing message before it: its [plan_update_steps] is the delta of
    the two snapshots. *)
Lemma decorate_consecutive (Date_parse : string → option Z)
    (pre mid post : list Msg.t) (m1 m2 : Msg.t) a b :
  planBearing m1 = true →
  planBearing m2 = true →
  Forall (λ m, planBearing m = false) mid →
  decorate Date_parse a b (pre ++ m1 :: mid ++ m2 :: post)
    !! (List.length pre + S (List.length mid))%nat
  = Some (withPlanUpdates m2
            (planDelta Date_parse
               (plan (addContentOf m1)) (plan_meta_data (addContentOf m1))
               (plan (addContentOf m2)) (plan_meta_data (addContentOf m2)))).
Proof.
  intros H1 H2 Hmid. revert a b.
  induction pre as [|x pre IH]; intros a b.
  - cbn [app List.length Nat.add decorate]. rewrite H1. cbn [negb].
    cbn [lookup list_lookup].
    set (a1 := Some _). set (b1 := Some _).
    assert (a1 = Some (buildPlanMetaMap Date_parse
                         (plan_meta_data (addContentOf m1)))) as Ha
      by (subst a1; destruct a; reflexivity).
    assert (b1 = Some (buildPlanStatusMap (plan (addContentOf m1)))) as Hb
      by (subst b1; destruct a; reflexivity).
    clearbody a1 b1. subst a1 b1.
    induction Hmid as [|y mid Hy Hmid IHmid].
    + cbn [app List.length decorate]. rewrite H2. reflexivity.
    + cbn [app List.length decorate]. rewrite Hy. cbn [negb]. exact IHmid.
  - cbn [app List.length Nat.add decorate].
    destruct (negb (planBearing x)); cbn [lookup list_lookup]; apply IH.
Qed.

Lemma decoratedMessages_delta (Date_parse : string → option Z)
    (pre mid post : list Msg.t) (m1 m2 : Msg.t) :
  planBearing m1 = true →
  planBearing m2 = true →
  Forall (λ m, planBearing m = false) mid →
  decoratedMessages Date_parse (pre ++ m1 :: mid ++ m2 :: post)
    !! (List.length pre + S (List.length mid))%nat
  = Some (withPlanUpdates m2
            (planDelta Date_parse
               (plan (addContentOf m1)) (plan_meta_data (addContentOf m1))
               (plan (addContentOf m2)) (plan_meta_data (addContentOf m2)))).
Proof. apply decorate_consecutive. Qed.

(** The first plan-bearing message of the list has no previous snapshot:
    its delta is empty. *)
Lemma decoratedMessages_first (Date_parse : string → option Z)
    (pre post : list Msg.t) (m : Msg.t) :
  Forall (λ m, planBearing m = false) pre →
  planBearing m = true →
  decoratedMessages Date_parse (pre ++ m :: post) !! List.length pre
  = Some (withPlanUpdates m []).
Proof.
  intros Hpre Hm. unfold decoratedMessages.
  induction Hpre as [|x pre Hx _ IH]; cbn [app List.length decorate].
  - rewrite Hm. reflexivity.
  - rewrite Hx. exact IH.
Qed.

(** ** Events of the stream *)

Lemma eqb_empty_false (s : string) : s ≠ "" → String.eqb s "" = false.
Proof. intros H. apply String.eqb_neq. exact H. Qed.

Lemma normalizeMessage_named (m : Msg.t) :
  Js.truthy (Msg.name m) = true → App.normalizeMessage m = m.
Proof.
  intros H. unfold App.normalizeMessage, Js.or. rewrite H.
  destruct m; reflexivity.
Qed.

(** C4, counterexample. A [history_reset] whose one message has no name
    leaves the subscriber with a list that differs from the event's. *)
Lemma history_reset_renames_unnamed :
  let carried := [Msg.mk VUndef (VStr "done") None (VNum 0) VUndef] in
  App.messages
    (App.handleEventData (Some (HistoryReset (Some carried))) "t1"
       Sample.loaded)
  ≠ carried.
Proof. cbv zeta. vm_compute. discriminate. Qed.

(** C4, as amended. After a [history_reset] the subscriber's list is the
    event's list with every missing or empty name replaced by "assistant",
    whatever the list was before; after a [message_update] it is the
    previous list followed by the event's messages, renamed in the same
    way. When every message of the event has a name, those are the
    event's messages themselves. *)
Theorem history_reset_replaces (st : App.State) (threadId : string)
    (carried : option (list Msg.t)) :
  threadId ≠ "" →
  App.messages (App.handleEventData (Some (HistoryReset carried)) threadId st)
  = map App.normalizeMessage (default [] carried)
  ∧ App.messages
      (App.handleEventData (Some (MessageUpdate carried)) threadId st)
    = (App.messages st ++ map App.normalizeMessage (default [] carried))%list
  ∧ (Forall (λ m, Js.truthy (Msg.name m) = true) (default [] carried) →
     map App.normalizeMessage (default [] carried) = default [] carried).
Proof.
  intros Hne. unfold App.handleEventData.
  rewrite (eqb_empty_false _ Hne). cbn.
  split; [reflexivity|]. split; [reflexivity|].
  induction 1 as [|m l Hm _ IH]; [reflexivity|].
  cbn [map]. rewrite (normalizeMessage_named _ Hm), IH. reflexivity.
Qed.

Lemma history_reset_replaces_witness :
  "t1" ≠ ""
  ∧ App.messages
      (App.handleEventData
         (Some (HistoryReset (Some [Sample.userMessage 0 "retry" (VBool false)])))
         "t1" Sample.loaded)
    = [Sample.userMessage 0 "retry" (VBool false)].
Proof.
  split; [discriminate|].
  exact (proj1 (history_reset_replaces Sample.loaded "t1"
                  (Some [Sample.userMessage 0 "retry" (VBool false)])
                  ltac:(discriminate))).
Defined.






Lemma reloadHistory_begin_activeRun (t : string) (st : App.State) :
  App.activeRun (App.reloadHistory_begin t st) = App.activeRun st
  ∧ App.loadingByThreadId (App.reloadHistory_begin t st)
    = App.loadingByThreadId st
  ∧ App.messages (App.reloadHistory_begin t st) = App.messages st
  ∧ App.streamErrorRef (App.reloadHistory_begin t st) = App.streamErrorRef st.
Proof.
  unfold App.reloadHistory_begin.
  destruct (String.eqb t "" || String.eqb t "-1"); repeat split.
Qed.

Lemma releaseIfNamed_spec (threadId : string) (run : ActiveRun.t) :
  (ActiveRun.threadId run = VStr threadId →
   App.releaseIfNamed threadId run = ActiveRun.none)
  ∧ (ActiveRun.threadId run ≠ VStr threadId →
     App.releaseIfNamed threadId run = run).
Proof.
  unfold App.releaseIfNamed, Js.strictEq.
  destruct (bool_decide_reflect (ActiveRun.threadId run = VStr threadId));
    split; intros; (reflexivity || contradiction).
Qed.

(** C7, counterexample. Thread "t1" is running and named by the active-run
    state; an [error] event for it leaves that state naming "t1", and the
    thread still counts as loading. *)
Lemma error_event_keeps_active_run :
  let st' := App.handleEventData (Some (ErrorEvent (VStr "executor failed")))
               "t1" Sample.running in
  ActiveRun.threadId (App.activeRun Sample.running) = VStr "t1"
  ∧ App.activeRun st' = ActiveRun.mk (VStr "t1") (VStr "ttbar scan")
  ∧ App.activeRun st' ≠ ActiveRun.none
  ∧ App.isLoading st' = true.
Proof. cbv zeta. vm_compute. repeat split; discriminate. Qed.

(** C7, as amended. A [done] or [interrupted] event for a thread clears the
    thread's loading flag and clears the active-run state when it names
    that thread (and leaves it alone when it names another). An [error]
    event clears the loading flag, records the error and the fact that the
    stream reported one, and leaves the active-run state as it was. *)
Theorem terminal_events_release (st : App.State) (threadId : string) :
  threadId ≠ "" →
  (∀ ev, ev = Done ∨ ev = Interrupted →
     let st' := App.handleEventData (Some ev) threadId st in
     App.loadingByThreadId st' !! threadId = None
     ∧ (ActiveRun.threadId (App.activeRun st) = VStr threadId →
        App.activeRun st' = ActiveRun.none)
     ∧ (ActiveRun.threadId (App.activeRun st) ≠ VStr threadId →
        App.activeRun st' = App.activeRun st))
  ∧ (∀ e,
       let st' := App.handleEventData (Some (ErrorEvent e)) threadId st in
       App.loadingByThreadId st' !! threadId = None
       ∧ App.activeRun st' = App.activeRun st
       ∧ App.error st' = Js.or e (VStr "Unknown error from server")
       ∧ App.streamErrorRef st' = true).
Proof.
  intros Hne. pose proof (eqb_empty_false _ Hne) as He.
  destruct (releaseIfNamed_spec threadId (App.activeRun st)) as [Hrel Hkeep].
  split.
  - intros ev [-> | ->] st'; subst st'; unfold App.handleEventData;
      rewrite He.
    + cbv zeta.
      set (st1 := App.fetchRuns _).
      assert (App.loadingByThreadId st1 !! threadId = None
              ∧ App.activeRun st1
                = App.releaseIfNamed threadId (App.activeRun st)) as [Hl Ha].
      { subst st1. unfold App.setThreadLoading. rewrite He. cbn.
        split; [apply lookup_delete_eq | reflexivity]. }
      set (st2 := if bool_decide _ then _ else st1).
      assert (App.loadingByThreadId st2 = App.loadingByThreadId st1
              ∧ App.activeRun st2 = App.activeRun st1) as [Hl2 Ha2].
      { subst st2. destruct (bool_decide _); [|split; reflexivity].
        destruct (reloadHistory_begin_activeRun threadId st1) as (? & ? & _).
        split; assumption. }
      destruct (negb (App.streamErrorRef st2)); cbn;
        rewrite Hl2, Ha2, Hl, Ha; auto.
    + unfold App.setThreadLoading. rewrite He. cbn.
      split; [apply lookup_delete_eq | auto].
  - intros e st'. subst st'. unfold App.handleEventData.
    rewrite He. unfold App.setThreadLoading. rewrite He. cbn.
    split; [apply lookup_delete_eq | auto].
Qed.

Lemma terminal_events_release_witness :
  "t1" ≠ ""
  ∧ App.activeRun (App.handleEventData (Some Done) "t1" Sample.running)
    = ActiveRun.none.
Proof.
  split; [discriminate|].
  exact (proj1 (proj2 (proj1 (terminal_events_release Sample.running "t1"
                                ltac:(discriminate))
                         Done (or_introl eq_refl)))
           eq_refl).
Defined.

(** ** Snapshot and subscription *)








(** ** Rewind and run requests *)

(** C6, counterexample. Thread "t1" is idle, its history is loaded and a
    [rewind_status = pending] event has arrived: the Rewind button of
    message 0 is shown and enabled, and once the editor is open its
    "Rewind & run" button is enabled and [confirmRewindEdit] sends the
    rewind request, the recorded status being pending throughout. *)
Lemma pending_status_does_not_gate :
  let m := Sample.userMessage 0 "generate ttbar" (VBool true) in
  App.currentRewindStatus Sample.pendingRewind = VStr "pending"
  ∧ MessageList.canStartRewind Sample.pendingRewind m = true
  ∧ App.currentRewindStatus Sample.editing = VStr "pending"
  ∧ MessageList.canConfirmRewind Sample.editing m = true
  ∧ App.requests (App.confirmRewindEdit_begin (Some m) Sample.editing)
    = (App.requests Sample.editing ++ [PostRewind "t1" (VNum 0) "retry"])%list.
Proof. cbv zeta. vm_compute. repeat split. Qed.

(** C6, as amended. While the selected thread is loading or some run is
    active ([rewindDisabled]), no rewind control is enabled; while that
    holds or a rewind request of this client is in flight ([isRewinding]),
    the confirm button is disabled and [confirmRewindEdit] does nothing.
    The rewind status recorded for a thread is not consulted: changing it
    changes neither the controls nor what [confirmRewindEdit] does. *)
Theorem rewind_gated_by_activity (st : App.State) (m : Msg.t) :
  (App.rewindDisabled st = true →
   MessageList.canStartRewind st m = false)
  ∧ (App.rewindDisabled st = true ∨ App.isRewinding st = true →
     MessageList.canConfirmRewind st m = false
     ∧ ∀ message, App.confirmRewindEdit_begin message st = st)
  ∧ (∀ f,
       let st' := App.setRewindStatusByThread f st in
       MessageList.canStartRewind st' m = MessageList.canStartRewind st m
       ∧ MessageList.canConfirmRewind st' m = MessageList.canConfirmRewind st m
       ∧ ∀ message,
           App.confirmRewindEdit_begin message st'
           = App.setRewindStatusByThread f
               (App.confirmRewindEdit_begin message st)).
Proof.
  split; [|split].
  - intros H. unfold MessageList.canStartRewind. rewrite H.
    apply andb_false_r.
  - intros H.
    assert (App.rewindDisabled st || App.isRewinding st = true) as Hg
      by (apply orb_true_iff; exact H).
    split.
    + unfold MessageList.canConfirmRewind.
      rewrite (orb_comm (App.isRewinding st)), Hg. apply andb_false_r.
    + intros [message|]; [|reflexivity]. unfold App.confirmRewindEdit_begin.
      rewrite Hg. destruct (negb _); reflexivity.
  - intros f st'. subst st'. split; [reflexivity|]. split; [reflexivity|].
    intros [message|]; [|reflexivity].
    unfold App.confirmRewindEdit_begin.
    change (App.rewindDisabled (App.setRewindStatusByThread f st))
      with (App.rewindDisabled st).
    change (App.isRewinding (App.setRewindStatusByThread f st))
      with (App.isRewinding st).
    change (App.selectedThreadId (App.setRewindStatusByThread f st))
      with (App.selectedThreadId st).
    change (App.rewindTextRef (App.setRewindStatusByThread f st))
      with (App.rewindTextRef st).
    destruct (negb _); [reflexivity|].
    destruct (_ || _); [reflexivity|].
    destruct (App.selectedThreadId st) as [t|]; [|reflexivity].
    destruct (_ || _); [reflexivity|].
    destruct (String.eqb _ _); reflexivity.
Qed.

Lemma rewind_gated_by_activity_witness :
  App.rewindDisabled Sample.running = true
  ∧ MessageList.canStartRewind Sample.running
      (Sample.userMessage 0 "generate ttbar" (VBool true)) = false.
Proof.
  split; [reflexivity|].
  exact (proj1 (rewind_gated_by_activity Sample.running
                  (Sample.userMessage 0 "generate ttbar" (VBool true)))
           eq_refl).
Defined.





(** C9, counterexample. A run request from the loaded thread "t1" is
    answered 409: the user message that [sendMessage] appended before
    sending is still in the list afterwards. *)
Lemma conflict_keeps_optimistic_message :
  let before := Sample.loaded in
  let sent := App.sendMessage_begin "hello" before in
  let after := App.sendMessage_resume "t1" Sample.busy sent in
  App.requests sent = (App.requests before ++ [PostChat "t1" "hello"])%list
  ∧ App.messages after
    = (App.messages before
       ++ [Msg.mk (VStr "user") (VStr "hello") None VUndef VUndef])%list
  ∧ App.messages after ≠ App.messages before.
Proof. cbv zeta. vm_compute. repeat split. discriminate. Qed.

(** C9, as amended. A 409 answer changes the message list in neither
    request: handling it leaves the list as it found it, and so does the
    part of [confirmRewindEdit] that runs before the request is sent. A run
    request, however, is preceded by appending the user's message to the
    list: [sendMessage] either does nothing or sends the request with
    that one message appended, and the 409 answer does not remove it. *)
Theorem conflict_leaves_messages (st : App.State) (threadId : string)
    (json : JsonResult) :
  App.messages (App.confirmRewindEdit_resume threadId (Resolved 409 json) st)
  = App.messages st
  ∧ (∀ message,
       App.messages (App.confirmRewindEdit_begin message st) = App.messages st)
  ∧ App.messages (App.sendMessage_resume threadId (Resolved 409 json) st)
    = App.messages st
  ∧ (∀ prompt,
       App.sendMessage_begin prompt st = st
       ∨ (App.requests (App.sendMessage_begin prompt st)
          = (App.requests st
             ++ [PostChat (default "-1" (App.selectedThreadId st)) prompt])%list
          ∧ App.messages (App.sendMessage_begin prompt st)
            = (App.messages st
               ++ [Msg.mk (VStr "user") (VStr prompt) None VUndef VUndef])%list)).
Proof.
  assert (∀ st', App.messages (fst (App.recordConflict json st'))
                 = App.messages st') as Hrec.
  { intros st'. unfold App.recordConflict. cbn [fst].
    destruct (Js.truthy _); reflexivity. }
  split; [|split; [|split]].
  - unfold App.confirmRewindEdit_resume. cbn [Z.eqb Pos.eqb].
    specialize (Hrec st). destruct (App.recordConflict json st). exact Hrec.
  - intros [message|]; [|reflexivity]. unfold App.confirmRewindEdit_begin.
    destruct (negb _); [reflexivity|].
    destruct (_ || _); [reflexivity|].
    destruct (App.selectedThreadId st) as [t|]; [|reflexivity].
    destruct (_ || _); [reflexivity|].
    destruct (String.eqb _ _); reflexivity.
  - unfold App.sendMessage_resume. cbn [Z.eqb Pos.eqb].
    specialize (Hrec st). destruct (App.recordConflict json st) as [st' msg].
    cbn [fst] in Hrec. unfold App.setThreadLoading.
    destruct (String.eqb threadId ""); exact Hrec.
  - intros prompt. unfold App.sendMessage_begin.
    destruct (App.isLoading st); [left; reflexivity|].
    destruct (App.blockNewMessages st); [left; reflexivity|].
    destruct (String.eqb _ _); [left; reflexivity|].
    right. unfold App.setThreadLoading. cbn.
    destruct (String.eqb _ _); split; reflexivity.
Qed.

(** ** The plan theorems on the sample snapshots *)

Lemma plan_delta_characterised_witness :
  Sample.step 1 "Generate events" "in_progress"
  ∈ planDelta Sample.Date_parse Sample.prevPlanB Sample.prevMetaB
      Sample.planB Sample.metaB.
Proof.
  apply (proj2 (plan_delta_characterised Sample.Date_parse Sample.prevPlanB
                  Sample.prevMetaB Sample.planB Sample.metaB)).
  split; [apply list_elem_of_In; cbn; tauto|].
  split; [reflexivity|].
  exists 1704067260000%Z. split; [vm_compute; reflexivity|].
  right. split.
  - exists 1704067200000%Z, 1704067260000%Z.
    repeat split; vm_compute; reflexivity.
  - intros [H _]. vm_compute in H. discriminate.
Defined.

Lemma plan_delta_transitions_witness :
  (Sample.step 2 "Shower" "pending"
   ∉ planDelta Sample.Date_parse Sample.prevPlanB Sample.prevMetaB
       Sample.planB Sample.metaB)
  ∧ (Sample.step 1 "Generate events" "in_progress"
     ∈ planDelta Sample.Date_parse Sample.prevPlanB Sample.prevMetaB
         Sample.planB Sample.metaB).
Proof.
  split.
  - apply (proj1 (plan_delta_transitions Sample.Date_parse Sample.prevPlanB
                    Sample.prevMetaB Sample.planB Sample.metaB
                    (Sample.step 2 "Shower" "pending")
                    ltac:(apply list_elem_of_In; cbn; tauto) eq_refl)).
    + split; vm_compute; reflexivity.
    + exists 1704067200000%Z. vm_compute. reflexivity.
  - apply (proj2 (plan_delta_transitions Sample.Date_parse Sample.prevPlanB
                    Sample.prevMetaB Sample.planB Sample.metaB
                    (Sample.step 1 "Generate events" "in_progress")
                    ltac:(apply list_elem_of_In; cbn; tauto) eq_refl)).
    + split; vm_compute; reflexivity.
    + exists 1704067260000%Z. split; [vm_compute; reflexivity|].
      right. exists 1704067200000%Z, 1704067260000%Z.
      repeat split; vm_compute; reflexivity.
Defined.

Lemma plan_delta_needs_id_and_timestamp_witness :
  id (Sample.step 3 "Detector" "pending") ≠ VNull
  ∧ ∃ entry ts,
      entry ∈ stepsOf Sample.metaA
      ∧ Js.toString (id entry) = "3"
      ∧ parsePlanMetaTimestamp Sample.Date_parse (last_updated entry) = Some ts.
Proof.
  destruct (proj2 (plan_delta_needs_id_and_timestamp Sample.Date_parse)
              Sample.planA Sample.metaA
              (Some (buildPlanMetaMap Sample.Date_parse Sample.prevMetaA))
              (Some (buildPlanStatusMap Sample.prevPlanA))
              (Sample.step 3 "Detector" "pending"))
    as (Hnull & _ & entry & ts & Hin & _ & _ & Hkey & Hts).
  - apply list_elem_of_In. vm_compute. tauto.
  - split; [exact Hnull|]. exists entry, ts. auto.
Defined.

(** * Further properties of the client *)

(** ** Decimal text of a number, read back *)

Lemma digitOf_pretty_N_char (d : N) :
  (d < 10)%N → JsNumber.digitOf (pretty_N_char d) = Some (Z.of_N d).
Proof.
  intros Hd.
  assert (d = 0 ∨ d = 1 ∨ d = 2 ∨ d = 3 ∨ d = 4 ∨ d = 5 ∨ d = 6 ∨ d = 7
          ∨ d = 8 ∨ d = 9)%N as H by lia.
  repeat (destruct H as [-> | H]; [reflexivity|]). subst d. reflexivity.
Qed.

(** Reading the digits that [pretty_N_go] puts in front of [s] multiplies
    the accumulator by a power of ten and adds the number. *)
Lemma digits_pretty_N_go (x : N) :
  ∃ k : Z, ∀ (s : string) (a : Z),
    JsNumber.digits a (pretty_N_go x s) = JsNumber.digits (a * k + Z.of_N x) s.
Proof.
  induction (N.lt_wf_0 x) as [x _ IH].
  destruct (N.eq_dec x 0) as [-> | Hx].
  - exists 1%Z. intros s a. rewrite pretty_N_go_0. f_equal. lia.
  - assert (0 < x)%N as Hpos by lia.
    destruct (IH (x `div` 10)%N) as [k Hk]; [apply N.div_lt; lia|].
    exists (10 * k)%Z. intros s a.
    rewrite pretty_N_go_step by exact Hpos. rewrite Hk.
    cbn [JsNumber.digits].
    rewrite digitOf_pretty_N_char by (apply N.mod_lt; lia).
    f_equal.
    pose proof (N.div_mod x 10 ltac:(lia)) as Hdm.
    assert (Z.of_N x = 10 * Z.of_N (x `div` 10) + Z.of_N (x `mod` 10))%Z
      by lia.
    lia.
Qed.

(** The decimal text of a positive number starts with a digit. *)
Lemma pretty_N_go_head (x : N) (s : string) :
  (0 < x)%N →
  ∃ c r, pretty_N_go x s = String c r ∧ is_Some (JsNumber.digitOf c).
Proof.
  revert s. induction (N.lt_wf_0 x) as [x _ IH]. intros s Hpos.
  rewrite pretty_N_go_step by exact Hpos.
  destruct (N.eq_dec (x `div` 10) 0) as [-> | Hq].
  - rewrite pretty_N_go_0. eexists _, _. split; [reflexivity|].
    rewrite digitOf_pretty_N_char by (apply N.mod_lt; lia). eauto.
  - apply IH; [apply N.div_lt; lia | apply N.neq_0_lt_0; exact Hq].
Qed.

Lemma trimEnd_noSpace (s : string) : noSpace s → Js.trimEnd s = s.
Proof.
  induction s as [|c r IH]; [reflexivity|]. intros [Hc Hr].
  cbn [Js.trimEnd]. rewrite (IH Hr). destruct r; [rewrite Hc|]; reflexivity.
Qed.

Lemma trim_noSpace (s : string) : noSpace s → Js.trim s = s.
Proof.
  intros H. unfold Js.trim.
  replace (Js.trimStart s) with s; [apply trimEnd_noSpace; exact H|].
  destruct s as [|c r]; [reflexivity|]. destruct H as [Hc _].
  cbn [Js.trimStart]. rewrite Hc. reflexivity.
Qed.

Lemma isSpace_pretty_N_char (d : N) : Js.isSpace (pretty_N_char d) = false.
Proof. unfold pretty_N_char. repeat case_match; reflexivity. Qed.

Lemma noSpace_pretty_N_go (x : N) (s : string) :
  noSpace s → noSpace (pretty_N_go x s).
Proof.
  revert s. induction (N.lt_wf_0 x) as [x _ IH]. intros s Hs.
  destruct (N.eq_dec x 0) as [-> | Hx]; [rewrite pretty_N_go_0; exact Hs|].
  rewrite pretty_N_go_step by lia.
  apply IH; [apply N.div_lt; lia|].
  split; [apply isSpace_pretty_N_char | exact Hs].
Qed.

(** When the trimmed text starts with neither sign, [Number] reads it as an
    unsigned run of digits. *)
Lemma ofString_unsigned (s : string) (c : ascii) (r : string) :
  Js.trim s = String c r → c ≠ "-"%char → c ≠ "+"%char →
  JsNumber.ofString s = JsNumber.unsigned (String c r).
Proof.
  intros Ht Hm Hp. unfold JsNumber.ofString. rewrite Ht.
  destruct c as [[] [] [] [] [] [] [] []]; try reflexivity; congruence.
Qed.

Lemma ofString_pretty_pos (p : positive) :
  JsNumber.unsigned (pretty_N_go (N.pos p) "") = Some (Z.pos p)
  ∧ noSpace (pretty_N_go (N.pos p) "")
  ∧ ∃ c r, pretty_N_go (N.pos p) "" = String c r
           ∧ is_Some (JsNumber.digitOf c).
Proof.
  destruct (pretty_N_go_head (N.pos p) "" ltac:(lia)) as (c & r & Heq & Hd).
  split; [|split; [apply noSpace_pretty_N_go; try exact I | eauto]].
  destruct (digits_pretty_N_go (N.pos p)) as [k Hk].
  unfold JsNumber.unsigned.
  replace (match pretty_N_go (N.pos p) "" with
           | "" => None
           | String _ _ => JsNumber.digits 0 (pretty_N_go (N.pos p) "")
           end)
    with (JsNumber.digits 0 (pretty_N_go (N.pos p) ""))
    by (rewrite Heq; reflexivity).
  rewrite Hk. cbn [JsNumber.digits]. f_equal; lia.
Qed.

(** [Number(String(n)) = n] for every integer. *)
Lemma ofString_pretty (z : Z) : JsNumber.ofString (pretty z) = Some z.
Proof.
  destruct z as [|p|p].
  - reflexivity.
  - destruct (ofString_pretty_pos p) as (Hu & Hns & c & r & Heq & Hd).
    change (pretty (Z.pos p)) with (pretty_N_go (N.pos p) "").
    rewrite (ofString_unsigned _ c r).
    + rewrite <- Heq. exact Hu.
    + rewrite trim_noSpace by exact Hns. exact Heq.
    + intros ->. destruct Hd as [? Hd]. discriminate Hd.
    + intros ->. destruct Hd as [? Hd]. discriminate Hd.
  - destruct (ofString_pretty_pos p) as (Hu & Hns & c & r & Heq & Hd).
    change (pretty (Z.neg p)) with (String "-" (pretty_N_go (N.pos p) "")).
    unfold JsNumber.ofString.
    rewrite trim_noSpace by (split; [reflexivity | exact Hns]).
    rewrite Hu. reflexivity.
Qed.

Lemma getEventCursorKey_inj (a b : string) :
  App.getEventCursorKey a = App.getEventCursorKey b → a = b.
Proof.
  unfold App.getEventCursorKey. intros H. cbv in H. congruence.
Qed.

(** ** Stored cursors *)

Lemma loadStoredCursor_lookup (t : string) (st : App.State) :
  t ≠ "" →
  App.loadStoredCursor t st
  = match App.localStorage st !! App.getEventCursorKey t with
    | Some s => default 0%Z (JsNumber.ofString s)
    | None => 0%Z
    end.
Proof.
  intros Ht. unfold App.loadStoredCursor. rewrite (eqb_empty_false _ Ht).
  destruct (App.localStorage st !! App.getEventCursorKey t); reflexivity.
Qed.

Lemma storeCursor_localStorage (t : string) (c : Z) (st : App.State) :
  t ≠ "" →
  App.localStorage (App.storeCursor t c st)
  = <[App.getEventCursorKey t := pretty c]> (App.localStorage st).
Proof.
  intros Ht. unfold App.storeCursor. rewrite (eqb_empty_false _ Ht).
  reflexivity.
Qed.

(** X1. A cursor stored for a thread is read back unchanged, whatever
    integer it is, and storing it leaves the cursor read for every other
    thread as it was. *)
Theorem stored_cursor_round_trip (t : string) (c : Z) (st : App.State) :
  t ≠ "" →
  App.loadStoredCursor t (App.storeCursor t c st) = c
  ∧ ∀ t', t' ≠ t →
      App.loadStoredCursor t' (App.storeCursor t c st)
      = App.loadStoredCursor t' st.
Proof.
  intros Ht. split.
  - rewrite loadStoredCursor_lookup, storeCursor_localStorage by exact Ht.
    rewrite lookup_insert_eq, ofString_pretty. reflexivity.
  - intros t' Hne. unfold App.loadStoredCursor.
    destruct (String.eqb t' ""); [reflexivity|].
    rewrite storeCursor_localStorage by exact Ht.
    rewrite lookup_insert_ne; [reflexivity|].
    intros H. apply getEventCursorKey_inj in H. congruence.
Qed.

Lemma stored_cursor_round_trip_witness :
  App.loadStoredCursor "t1"
    (App.storeCursor "t1" (-3) (App.initial (Some "t1"))) = (-3)%Z.
Proof.
  exact (proj1 (stored_cursor_round_trip "t1" (-3) (App.initial (Some "t1"))
                  ltac:(discriminate))).
Defined.



(** ** Opening the stream *)



(** ** Messages of the stream *)

Lemma handleEventData_cursor (ev : option EventData) (t : string)
    (st : App.State) :
  App.eventCursorRef (App.handleEventData ev t st) = App.eventCursorRef st
  ∧ App.localStorage (App.handleEventData ev t st) = App.localStorage st
  ∧ App.selectedThreadId (App.handleEventData ev t st)
    = App.selectedThreadId st
  ∧ App.rewindEditIndex (App.handleEventData ev t st)
    = App.rewindEditIndex st
  ∧ App.isRewinding (App.handleEventData ev t st) = App.isRewinding st
  ∧ App.rewindTextRef (App.handleEventData ev t st) = App.rewindTextRef st.
Proof.
  unfold App.handleEventData.
  destruct ev as [ev|]; [|repeat split].
  destruct (String.eqb t "") eqn:Ht; [repeat split|].
  destruct ev; cbv zeta; unfold App.setThreadLoading, App.reloadHistory_begin;
    rewrite ?Ht; cbn; repeat split;
    repeat (match goal with
            | |- context [if ?b then _ else _] => destruct b; cbn
            end); reflexivity.
Qed.



(** X5. No event of the stream changes the selected thread, the rewind
    editor (its index, its draft, the in-flight flag), the cursor or the
    storage; and no event other than a [done] that is handled sends a
    request or touches the stream. *)
Theorem events_leave_selection_and_editor (ev : option EventData)
    (t : string) (st : App.State) :
  let st' := App.handleEventData ev t st in
  (App.selectedThreadId st' = App.selectedThreadId st
   ∧ App.rewindEditIndex st' = App.rewindEditIndex st
   ∧ App.rewindTextRef st' = App.rewindTextRef st
   ∧ App.isRewinding st' = App.isRewinding st
   ∧ App.eventCursorRef st' = App.eventCursorRef st
   ∧ App.localStorage st' = App.localStorage st)
  ∧ (ev ≠ Some Done →
     App.requests st' = App.requests st
     ∧ App.eventSourceRef st' = App.eventSourceRef st
     ∧ App.isHistoryLoading st' = App.isHistoryLoading st).
Proof.
  intros st'. subst st'.
  destruct (handleEventData_cursor ev t st) as (H1 & H2 & H3 & H4 & H5 & H6).
  split; [repeat split; assumption|].
  intros Hnd. unfold App.handleEventData.
  destruct ev as [ev|]; [|repeat split].
  destruct (String.eqb t "") eqn:Ht; [repeat split|].
  destruct ev; try congruence; unfold App.setThreadLoading; rewrite ?Ht;
    repeat split.
Qed.

Lemma events_leave_selection_and_editor_witness :
  App.requests
    (App.handleEventData (Some (ErrorEvent VUndef)) "t1" Sample.editing)
  = App.requests Sample.editing.
Proof.
  exact (proj1 (proj2 (events_leave_selection_and_editor
                         (Some (ErrorEvent VUndef)) "t1" Sample.editing)
                  ltac:(discriminate))).
Defined.

Lemma done_fields (t : string) (st : App.State) :
  t ≠ "" →
  let st' := App.handleEventData (Some Done) t st in
  App.streamErrorRef st' = false
  ∧ App.error st'
    = (if App.streamErrorRef st then App.error st else VStr "")
  ∧ App.messages st' = App.messages st
  ∧ App.requests st'
    = (App.requests st
       ++ GetRuns
          :: (if bool_decide (App.selectedThreadId st = Some t)
                 && negb (String.eqb t "-1")
              then [GetHistory t true] else []))%list
  ∧ (bool_decide (App.selectedThreadId st = Some t)
     && negb (String.eqb t "-1") = true →
     App.eventSourceRef st' = None ∧ App.isHistoryLoading st' = true)
  ∧ (bool_decide (App.selectedThreadId st = Some t)
     && negb (String.eqb t "-1") = false →
     App.eventSourceRef st' = App.eventSourceRef st
     ∧ App.isHistoryLoading st' = App.isHistoryLoading st).
Proof.
  intros Ht st'. subst st'. unfold App.handleEventData.
  rewrite (eqb_empty_false _ Ht). cbv zeta.
  unfold App.setThreadLoading, App.reloadHistory_begin.
  rewrite (eqb_empty_false _ Ht). cbn [orb].
  change (App.selectedThreadId (App.fetchRuns _))
    with (App.selectedThreadId st).
  destruct (bool_decide (App.selectedThreadId st = Some t));
    destruct (String.eqb t "-1"); cbn [andb negb];
    destruct (App.streamErrorRef st) eqn:Hs; cbn; rewrite ?Hs; cbn;
    rewrite <- ?app_assoc; repeat split; intros; discriminate.
Qed.

(** X6. An error reported on the stream is still shown after the [done]
    event that follows it, whereas a [done] that no error preceded clears
    the error; either way the next run starts without the error mark. *)
Theorem error_survives_done (t : string) (e : JsVal) (st : App.State) :
  t ≠ "" →
  let failed := App.handleEventData (Some (ErrorEvent e)) t st in
  let finished := App.handleEventData (Some Done) t failed in
  App.error finished = Js.or e (VStr "Unknown error from server")
  ∧ App.streamErrorRef finished = false
  ∧ (App.streamErrorRef st = false →
     App.error (App.handleEventData (Some Done) t st) = VStr "").
Proof.
  intros Ht failed finished. subst finished.
  destruct (done_fields t failed Ht) as (Hs & He & _).
  destruct (done_fields t st Ht) as (_ & He' & _).
  cbv zeta in *. rewrite Hs, He, He'.
  assert (App.streamErrorRef failed = true
          ∧ App.error failed = Js.or e (VStr "Unknown error from server"))
    as [-> ->].
  { subst failed. unfold App.handleEventData.
    rewrite (eqb_empty_false _ Ht). unfold App.setThreadLoading.
    rewrite (eqb_empty_false _ Ht). split; reflexivity. }
  split; [reflexivity|]. split; [reflexivity|]. intros ->. reflexivity.
Qed.

Lemma error_survives_done_witness :
  App.error
    (App.handleEventData (Some Done) "t1"
       (App.handleEventData (Some (ErrorEvent (VStr "executor failed"))) "t1"
          Sample.running))
  = VStr "executor failed".
Proof.
  exact (proj1 (error_survives_done "t1" (VStr "executor failed")
                  Sample.running ltac:(discriminate))).
Defined.



(** ** History reloads *)

(** X8. However a history reload ends, the history-loading flag is cleared.
    When it fails (the fetch rejects, the status is not 2xx, or the body
    is not a JSON object) the message list, the recorded rewind status,
    the cursor and the storage stay as they were, an error text is set,
    and no stream is opened: after the reload has closed the stream and
    then failed, the client is left without one. *)
Theorem reloadHistory_failure (t : string) (res : FetchResult)
    (st : App.State) :
  App.isHistoryLoading (App.reloadHistory_resume t res st) = false
  ∧ ((∀ status data,
        res = Resolved status (JsonObject data) → ok status = false) →
     let st' := App.reloadHistory_resume t res st in
     App.messages st' = App.messages st
     ∧ App.rewindStatusByThread st' = App.rewindStatusByThread st
     ∧ App.eventCursorRef st' = App.eventCursorRef st
     ∧ App.localStorage st' = App.localStorage st
     ∧ App.eventSourceRef st' = App.eventSourceRef st
     ∧ (∃ text, App.error st' = VStr text)
     ∧ (t ≠ "" → t ≠ "-1" →
        App.eventSourceRef
          (App.reloadHistory_resume t res (App.reloadHistory_begin t st))
        = None)).
Proof.
  split.
  - unfold App.reloadHistory_resume.
    destruct res as [e | status json]; [reflexivity|].
    destruct (negb (ok status)); [reflexivity|].
    destruct json; reflexivity.
  - intros Hfail st'. subst st'.
    assert (∀ st0,
              App.messages (App.reloadHistory_resume t res st0)
              = App.messages st0
              ∧ App.rewindStatusByThread (App.reloadHistory_resume t res st0)
                = App.rewindStatusByThread st0
              ∧ App.eventCursorRef (App.reloadHistory_resume t res st0)
                = App.eventCursorRef st0
              ∧ App.localStorage (App.reloadHistory_resume t res st0)
                = App.localStorage st0
              ∧ App.eventSourceRef (App.reloadHistory_resume t res st0)
                = App.eventSourceRef st0
              ∧ ∃ text, App.error (App.reloadHistory_resume t res st0)
                        = VStr text) as Hkeep.
    { intros st0. unfold App.reloadHistory_resume.
      destruct res as [e | status json]; [repeat split; eauto|].
      destruct (ok status) eqn:Hok; cbn [negb].
      - destruct json as [e | | data]; [repeat split; eauto..|].
        specialize (Hfail status data eq_refl). congruence.
      - unfold App.reportResponseError. repeat split; eauto. }
    destruct (Hkeep st) as (? & ? & ? & ? & ? & ?).
    repeat (split; [assumption|]).
    intros Ht Hn.
    destruct (Hkeep (App.reloadHistory_begin t st)) as (_ & _ & _ & _ & -> & _).
    unfold App.reloadHistory_begin. rewrite (eqb_empty_false _ Ht).
    assert (String.eqb t "-1" = false) as -> by (apply String.eqb_neq; exact Hn).
    reflexivity.
Qed.

Lemma reloadHistory_failure_witness :
  App.messages
    (App.reloadHistory_resume "t1" (Resolved 500 JsonNull) Sample.loaded)
  = App.messages Sample.loaded.
Proof.
  exact (proj1 (proj2 (reloadHistory_failure "t1" (Resolved 500 JsonNull)
                         Sample.loaded)
                  ltac:(intros ? ? H; discriminate H))).
Defined.

(** X9. When the history effect is answered 404 with detail "Run not
    found", the client falls back to the new-run view: "-1" is selected,
    the list is emptied and the error cleared, even if the effect had been
    cancelled. Any other 404 keeps selection and list and reports the
    detail, or the status when there is none. *)
Theorem loadHistory_run_not_found (sel : string) (cancelled : bool)
    (json : JsonResult) (st : App.State) :
  let st' := App.loadHistory_resume sel cancelled (Resolved 404 json) st in
  let detail := match json with
                | JsonObject data =>
                    match Body.detail data with
                    | DetailVal (VStr d) => d
                    | _ => ""
                    end
                | _ => ""
                end in
  (detail = "Run not found" →
   App.selectedThreadId st' = Some "-1"
   ∧ App.messages st' = []
   ∧ App.error st' = VStr "")
  ∧ (detail ≠ "Run not found" →
     App.selectedThreadId st' = App.selectedThreadId st
     ∧ App.messages st' = App.messages st
     ∧ App.eventSourceRef st' = App.eventSourceRef st
     ∧ App.error st'
       = VStr (if String.eqb detail "" then "Failed to load history (404)"
               else "Failed to load history: " ++ detail)).
Proof.
  intros st' detail. subst st'. unfold App.loadHistory_resume.
  change (negb (ok 404)) with true. cbn iota. change (404 =? 404)%Z with true.
  cbn iota. fold detail.
  split.
  - intros ->. cbn. destruct cancelled; repeat split.
  - intros Hd. apply String.eqb_neq in Hd. rewrite Hd.
    destruct (String.eqb detail ""); destruct cancelled; repeat split.
Qed.

Lemma loadHistory_run_not_found_witness :
  App.selectedThreadId
    (App.loadHistory_resume "t9" true
       (Resolved 404
          (JsonObject (Body.mk None VUndef VUndef VUndef
                         (DetailVal (VStr "Run not found"))
                         VUndef VUndef VUndef)))
       Sample.loaded)
  = Some "-1".
Proof.
  exact (proj1 (proj1 (loadHistory_run_not_found "t9" true
                         (JsonObject (Body.mk None VUndef VUndef VUndef
                                        (DetailVal (VStr "Run not found"))
                                        VUndef VUndef VUndef))
                         Sample.loaded) eq_refl)).
Defined.

(** X10. A history effect that was cancelled before its snapshot arrived
    shows nothing of it: list, rewind status, stream, history flag and
    error stay as they are. The cursor is moved all the same: the cursor
    kept in memory and the one stored for that thread become the
    snapshot's. *)
Theorem loadHistory_cancelled (sel : string) (status : Z) (data : Body.t)
    (C : Z) (st : App.State) :
  sel ≠ "" →
  ok status = true →
  Body.event_cursor data = VNum C →
  let st' := App.loadHistory_resume sel true
               (Resolved status (JsonObject data)) st in
  App.messages st' = App.messages st
  ∧ App.rewindStatusByThread st' = App.rewindStatusByThread st
  ∧ App.eventSourceRef st' = App.eventSourceRef st
  ∧ App.isHistoryLoading st' = App.isHistoryLoading st
  ∧ App.error st' = App.error st
  ∧ App.eventCursorRef st' = C
  ∧ App.loadStoredCursor sel st' = C.
Proof.
  intros Hs Hok Hc st'. subst st'. unfold App.loadHistory_resume.
  rewrite Hok. cbn [negb]. unfold App.resumeFromSnapshot. rewrite Hc.
  cbv zeta. cbn [JsNumber.ofVal default negb].
  pose proof (stored_cursor_round_trip sel C (App.setEventCursor C st) Hs)
    as [Hrt _].
  repeat (split; [unfold App.storeCursor; rewrite (eqb_empty_false _ Hs);
                  reflexivity|]).
  exact Hrt.
Qed.

Lemma loadHistory_cancelled_witness :
  App.eventCursorRef
    (App.loadHistory_resume "t9" true
       (Resolved 200
          (JsonObject (Body.mk None (VNum 40) VUndef VUndef (DetailVal VUndef)
                         VUndef VUndef VUndef)))
       Sample.loaded)
  = 40%Z.
Proof.
  exact (proj1 (proj2 (proj2 (proj2 (proj2 (proj2
    (loadHistory_cancelled "t9" 200
       (Body.mk None (VNum 40) VUndef VUndef (DetailVal VUndef)
          VUndef VUndef VUndef)
       40 Sample.loaded ltac:(discriminate) eq_refl eq_refl))))))).
Defined.

(** ** Run requests *)

Lemma ok_not_409 (status : Z) : ok status = true → (status =? 409)%Z = false.
Proof.
  unfold ok. intros H. apply andb_true_iff in H as [_ H].
  apply Z.leb_le in H. apply Z.eqb_neq. lia.
Qed.

(** X11. When the first message of a new run is accepted and the answer
    names thread [t], the client selects [t], moves the loading flag from
    the new-run slot to [t] and refreshes the runs; the history effect
    that the selection triggers then asks for no history: it opens the
    stream of [t] at cursor 0 and leaves the list, with the message the
    user just sent, as it is. *)
Theorem new_run_subscribes_from_zero (status : Z) (data : Body.t)
    (t : string) (st : App.State) :
  ok status = true →
  Body.thread_id data = VStr t →
  t ≠ "" → t ≠ "-1" →
  let accepted :=
    App.sendMessage_resume "-1" (Resolved status (JsonObject data)) st in
  let shown := App.loadHistory_begin accepted in
  App.selectedThreadId shown = Some t
  ∧ App.pendingRunId shown = Some t
  ∧ App.messages shown = App.messages st
  ∧ App.requests shown = (App.requests st ++ [GetRuns])%list
  ∧ App.eventSourceRef shown = Some (mkEventSource t "0")
  ∧ App.eventCursorRef shown = 0%Z
  ∧ App.skipHistoryRef shown = false
  ∧ App.isHistoryLoading shown = false
  ∧ (App.loadingByThreadId st !! "-1" = Some true →
     App.loadingByThreadId shown !! t = Some true
     ∧ App.loadingByThreadId shown !! "-1" = None).
Proof.
  intros Hok Hid Ht Hn accepted shown.
  assert (String.eqb t "-1" = false) as Hn' by (apply String.eqb_neq; exact Hn).
  assert (String.eqb "-1" t = false) as Hn''
    by (apply String.eqb_neq; congruence).
  pose proof (eqb_empty_false _ Ht) as Ht'.
  assert (accepted
          = App.moveThreadLoading "-1" t
              (App.fetchRuns
                 (App.setPendingRunId (Some t)
                    (App.setSelectedThreadId (Some t)
                       (App.storeCursor t 0
                          (App.setEventCursor 0
                             (App.setSkipHistory true st))))))) as Hacc.
  { subst accepted. unfold App.sendMessage_resume.
    rewrite (ok_not_409 _ Hok), Hok, Hid. cbn [negb String.eqb Ascii.eqb].
    unfold Js.or. cbn [Js.truthy]. rewrite Ht'. reflexivity. }
  assert (App.moveThreadLoading "-1" t
          = App.setLoadingByThreadId
              (λ prev, if negb (default false (prev !! "-1")) then prev
                       else <[t := true]> (delete "-1" prev))) as Hmove.
  { unfold App.moveThreadLoading. rewrite Ht', Hn''. reflexivity. }
  rewrite Hmove in Hacc.
  assert (App.selectedThreadId accepted = Some t
          ∧ App.skipHistoryRef accepted = true
          ∧ App.localStorage accepted
            = App.localStorage (App.storeCursor t 0 st)) as (Hsel & Hskip & Hls).
  { rewrite Hacc. unfold App.storeCursor. rewrite Ht'. repeat split. }
  assert (App.loadStoredCursor t accepted = 0%Z) as Hload.
  { rewrite loadStoredCursor_lookup, Hls by exact Ht.
    rewrite <- loadStoredCursor_lookup by exact Ht.
    apply stored_cursor_round_trip. exact Ht. }
  assert (shown
          = App.setIsHistoryLoading false
              (App.connectEventSource t 0
                 (App.setEventCursor 0
                    (App.setSkipHistory false accepted)))) as Hshown.
  { subst shown. unfold App.loadHistory_begin.
    rewrite Hsel, Ht', Hn', Hskip, Hload. reflexivity. }
  rewrite Hshown. unfold App.connectEventSource. rewrite Ht', Hn'.
  cbn [orb]. clear Hshown Hsel Hskip Hls Hload. rewrite Hacc.
  unfold App.storeCursor. rewrite Ht'.
  repeat (split; [reflexivity|]).
  intros Hl. cbn. rewrite Hl. cbn.
  rewrite lookup_insert_eq, lookup_insert_ne, lookup_delete_eq by congruence.
  split; reflexivity.
Qed.

Lemma new_run_subscribes_from_zero_witness :
  App.eventSourceRef
    (App.loadHistory_begin
       (App.sendMessage_resume "-1"
          (Resolved 200
             (JsonObject (Body.mk None VUndef VUndef (VStr "t5")
                            (DetailVal VUndef) VUndef VUndef VUndef)))
          (App.sendMessage_begin "hello" (App.initial None))))
  = Some (mkEventSource "t5" "0").
Proof.
  exact (proj1 (proj2 (proj2 (proj2 (proj2
    (new_run_subscribes_from_zero 200
       (Body.mk None VUndef VUndef (VStr "t5") (DetailVal VUndef)
          VUndef VUndef VUndef)
       "t5" (App.sendMessage_begin "hello" (App.initial None))
       eq_refl eq_refl ltac:(discriminate) ltac:(discriminate))))))).
Defined.

Lemma isLoading_flag (st : App.State) :
  App.loadingByThreadId st !! App.currentThreadKey st = Some true →
  App.isLoading st = true ∧ App.rewindDisabled st = true.
Proof.
  intros H. unfold App.rewindDisabled, App.isLoading. rewrite H.
  split; reflexivity.
Qed.

(** X12. Once [sendMessage] has sent a request for the selected thread (or
    for a new run), that thread counts as loading, so a further
    [sendMessage] or [confirmRewindEdit] does nothing until the flag is
    cleared: a message cannot be submitted twice. A thread whose id is the
    empty string is the one case this does not cover. *)
Theorem sendMessage_not_twice (prompt : string) (st : App.State) :
  App.selectedThreadId st ≠ Some "" →
  let sent := App.sendMessage_begin prompt st in
  App.requests sent ≠ App.requests st →
  App.isLoading sent = true
  ∧ (∀ prompt', App.sendMessage_begin prompt' sent = sent)
  ∧ (∀ message, App.confirmRewindEdit_begin message sent = sent).
Proof.
  intros Hsel sent Hreq. subst sent.
  unfold App.sendMessage_begin in *.
  destruct (App.isLoading st); [contradiction|].
  destruct (App.blockNewMessages st); [contradiction|].
  destruct (String.eqb (Js.trim prompt) ""); [contradiction|].
  clear Hreq. cbv zeta.
  replace (App.selectedThreadId
             (App.clearRewindText
                (App.setRewindError "" (App.setRewindEditIndex VNull st))))
    with (App.selectedThreadId st) by reflexivity.
  set (t := default "-1" (App.selectedThreadId st)).
  assert (t ≠ "") as Ht.
  { subst t. destruct (App.selectedThreadId st) as [sel|] eqn:Hs;
      cbn; [intros ->; congruence | discriminate]. }
  unfold App.setThreadLoading. rewrite (eqb_empty_false _ Ht).
  set (sent := App.send _ _).
  assert (App.loadingByThreadId sent !! App.currentThreadKey sent = Some true)
    as Hflag.
  { change (App.currentThreadKey sent) with t.
    change (App.loadingByThreadId sent)
      with (<[t := true]> (App.loadingByThreadId st)).
    apply lookup_insert_eq. }
  destruct (isLoading_flag sent Hflag) as [Hl Hd].
  split; [exact Hl|]. split.
  - intros p'. unfold App.sendMessage_begin. rewrite Hl. reflexivity.
  - intros [m|]; [|reflexivity]. unfold App.confirmRewindEdit_begin.
    rewrite Hd. cbn [orb]. destruct (negb _); reflexivity.
Qed.

Lemma sendMessage_not_twice_witness :
  App.sendMessage_begin "again"
    (App.sendMessage_begin "hello" Sample.loaded)
  = App.sendMessage_begin "hello" Sample.loaded.
Proof.
  exact (proj1 (proj2 (sendMessage_not_twice "hello" Sample.loaded
                         ltac:(vm_compute; discriminate)
                         ltac:(vm_compute; discriminate)))
           "again").
Defined.

(** X13. A run request that fails in any way other than 409 (the fetch
    rejects, the status is not 2xx, or the 2xx body is not JSON) clears
    the loading flag of its thread and shows an error text; selection,
    stream and request log are untouched and the message the user sent
    stays in the list. *)
Theorem sendMessage_failure_clears_loading (t : string) (res : FetchResult)
    (st : App.State) :
  t ≠ "" →
  (∃ e, res = Rejected e)
  ∨ (∃ status json, res = Resolved status json ∧ ok status = false
                    ∧ status ≠ 409%Z)
  ∨ (∃ status e, res = Resolved status (JsonThrows e) ∧ ok status = true) →
  let st' := App.sendMessage_resume t res st in
  App.loadingByThreadId st' !! t = None
  ∧ (∃ text, App.error st' = VStr text)
  ∧ App.messages st' = App.messages st
  ∧ App.selectedThreadId st' = App.selectedThreadId st
  ∧ App.activeRun st' = App.activeRun st
  ∧ App.eventSourceRef st' = App.eventSourceRef st
  ∧ App.requests st' = App.requests st.
Proof.
  intros Ht Hres st'. subst st'. unfold App.sendMessage_resume.
  assert (∀ e,
            let st' := App.setThreadLoading t false (App.setError (VStr e) st) in
            App.loadingByThreadId st' !! t = None
            ∧ (∃ text, App.error st' = VStr text)
            ∧ App.messages st' = App.messages st
            ∧ App.selectedThreadId st' = App.selectedThreadId st
            ∧ App.activeRun st' = App.activeRun st
            ∧ App.eventSourceRef st' = App.eventSourceRef st
            ∧ App.requests st' = App.requests st) as Hcatch.
  { intros e. unfold App.setThreadLoading. rewrite (eqb_empty_false _ Ht).
    cbn. split; [apply lookup_delete_eq|]. repeat split. eauto. }
  destruct Hres as [[e ->] | [(status & json & -> & Hok & Hn)
                             | (status & e & -> & Hok)]].
  - apply Hcatch.
  - assert ((status =? 409)%Z = false) as -> by (apply Z.eqb_neq; exact Hn).
    rewrite Hok. apply Hcatch.
  - rewrite (ok_not_409 _ Hok), Hok. apply Hcatch.
Qed.

Lemma sendMessage_failure_clears_loading_witness :
  App.loadingByThreadId
    (App.sendMessage_resume "t1" (Resolved 500 JsonNull)
       (App.sendMessage_begin "hello" Sample.loaded)) !! "t1" = None.
Proof.
  assert ((∃ e, Resolved 500 JsonNull = Rejected e)
          ∨ (∃ status json, Resolved 500 JsonNull = Resolved status json
                            ∧ ok status = false ∧ status ≠ 409%Z)
          ∨ (∃ status e, Resolved 500 JsonNull = Resolved status (JsonThrows e)
                         ∧ ok status = true)) as Hres.
  { right. left. exists 500%Z, JsonNull.
    split; [reflexivity|]. split; [reflexivity | discriminate]. }
  pose proof (sendMessage_failure_clears_loading "t1" (Resolved 500 JsonNull)
                (App.sendMessage_begin "hello" Sample.loaded)
                ltac:(discriminate) Hres) as H.
  exact (proj1 H).
Defined.

(** X14. A 409 whose body is missing, is not JSON, or carries a string
    [detail] names no run: the client then leaves its active-run state
    alone and reports "Run another run is already running.", for a run
    request in the general error and for a rewind in the rewind error. *)
Theorem conflict_without_identity (t : string) (json : JsonResult)
    (st : App.State) :
  json = JsonNull
  ∨ (∃ e, json = JsonThrows e)
  ∨ (∃ data d, json = JsonObject data
               ∧ Body.detail data = DetailVal (VStr d)) →
  let run := App.sendMessage_resume t (Resolved 409 json) st in
  let rewind := App.confirmRewindEdit_resume t (Resolved 409 json) st in
  App.activeRun run = App.activeRun st
  ∧ App.error run = VStr "Run another run is already running."
  ∧ App.activeRun rewind = App.activeRun st
  ∧ App.rewindError rewind = "Run another run is already running."
  ∧ App.isRewinding rewind = false.
Proof.
  intros Hjson run rewind. subst run rewind.
  assert (App.recordConflict json st
          = (st, "Run another run is already running.")) as Hrec.
  { unfold App.recordConflict.
    assert (App.conflictDetail json = (VUndef, VUndef)) as ->.
    { destruct Hjson as [-> | [[e ->] | (data & d & -> & Hd)]];
        [reflexivity..|].
      unfold App.conflictDetail. rewrite Hd. reflexivity. }
    reflexivity. }
  unfold App.sendMessage_resume, App.confirmRewindEdit_resume.
  change (409 =? 409)%Z with true. cbn iota. rewrite Hrec.
  unfold App.setThreadLoading. destruct (String.eqb t ""); repeat split.
Qed.

Lemma conflict_without_identity_witness :
  App.error
    (App.sendMessage_resume "t1" (Resolved 409 JsonNull)
       (App.sendMessage_begin "hello" Sample.loaded))
  = VStr "Run another run is already running.".
Proof.
  exact (proj1 (proj2 (conflict_without_identity "t1" JsonNull
                         (App.sendMessage_begin "hello" Sample.loaded)
                         (or_introl eq_refl)))).
Defined.

(** ** Rewind requests *)

(** X15. [confirmRewindEdit] either sends nothing or sends exactly one
    rewind request, and a request it sends is well formed: it is for the
    selected thread, which is a real one (neither empty nor "-1"), it
    carries the numeric index of the message, and its text is the draft
    with surrounding white space removed and is not empty. *)
Theorem rewind_request_well_formed (message : option Msg.t)
    (st : App.State) :
  let st' := App.confirmRewindEdit_begin message st in
  App.requests st' = App.requests st
  ∨ ∃ m t i,
      message = Some m
      ∧ Msg.message_index m = VNum i
      ∧ App.selectedThreadId st = Some t ∧ t ≠ "" ∧ t ≠ "-1"
      ∧ Js.trim (default "" (App.rewindTextRef st)) ≠ ""
      ∧ App.requests st'
        = (App.requests st
           ++ [PostRewind t (VNum i)
                 (Js.trim (default "" (App.rewindTextRef st)))])%list.
Proof.
  intros st'. subst st'. unfold App.confirmRewindEdit_begin.
  destruct message as [m|]; [|left; reflexivity].
  destruct (Msg.message_index m) as [| |b|i|s] eqn:Hi; cbn [Js.isNumber negb];
    try (left; reflexivity).
  destruct (_ || _); [left; reflexivity|].
  destruct (App.selectedThreadId st) as [t|]; [|left; reflexivity].
  destruct (String.eqb_spec t ""); [left; reflexivity|].
  destruct (String.eqb_spec t "-1"); [left; reflexivity|]. cbn [orb].
  destruct (String.eqb_spec (Js.trim (default "" (App.rewindTextRef st))) "");
    [left; reflexivity|].
  right. exists m, t, i. repeat split; assumption.
Qed.

(** X16. A rewind request in flight blocks a second one: once
    [confirmRewindEdit] has sent its request, a further call does nothing.
    Whatever failure answers the request (the fetch rejects, 409, or any
    status that is not 2xx), the in-flight mark is removed and the editor
    stays open with its draft, so the user can try again; the message
    list and the thread's loading flag are as before. *)
Theorem rewind_in_flight_and_failure (t : string) (st : App.State) :
  (∀ message,
     App.requests (App.confirmRewindEdit_begin message st)
     ≠ App.requests st →
     App.isRewinding (App.confirmRewindEdit_begin message st) = true
     ∧ ∀ again,
         App.confirmRewindEdit_begin again
           (App.confirmRewindEdit_begin message st)
         = App.confirmRewindEdit_begin message st)
  ∧ (∀ res,
       (∀ status json, res = Resolved status json → ok status = false) →
       let st' := App.confirmRewindEdit_resume t res st in
       App.isRewinding st' = false
       ∧ App.rewindEditIndex st' = App.rewindEditIndex st
       ∧ App.rewindTextRef st' = App.rewindTextRef st
       ∧ App.messages st' = App.messages st
       ∧ App.loadingByThreadId st' = App.loadingByThreadId st
       ∧ App.selectedThreadId st' = App.selectedThreadId st
       ∧ App.requests st' = App.requests st).
Proof.
  split.
  - intros message Hreq.
    assert (App.isRewinding (App.confirmRewindEdit_begin message st) = true)
      as Hfl.
    { unfold App.confirmRewindEdit_begin in *.
      destruct message as [m|]; [|contradiction].
      destruct (negb _); [contradiction|].
      destruct (_ || _); [contradiction|].
      destruct (App.selectedThreadId st) as [sel|]; [|contradiction].
      destruct (_ || _); [contradiction|].
      destruct (String.eqb _ _); [contradiction|]. reflexivity. }
    split; [exact Hfl|].
    intros [again|]; [|reflexivity].
    unfold App.confirmRewindEdit_begin at 1. rewrite Hfl, orb_true_r.
    destruct (negb _); reflexivity.
  - intros res Hfail st'. subst st'. unfold App.confirmRewindEdit_resume.
    destruct res as [e | status json]; [repeat split|].
    specialize (Hfail status json eq_refl).
    destruct (status =? 409)%Z.
    + unfold App.recordConflict. destruct (Js.truthy _); repeat split.
    + rewrite Hfail. repeat split.
Qed.

Lemma rewind_in_flight_and_failure_witness :
  App.isRewinding
    (App.confirmRewindEdit_resume "t1" (Resolved 500 JsonNull)
       (App.confirmRewindEdit_begin
          (Some (Sample.userMessage 0 "generate ttbar" (VBool true)))
          Sample.editing))
  = false.
Proof.
  assert (∀ status json,
            Resolved 500 JsonNull = Resolved status json → ok status = false)
    as Hfail by (intros ? ? [= <- _]; reflexivity).
  pose proof (proj2 (rewind_in_flight_and_failure "t1"
                       (App.confirmRewindEdit_begin
                          (Some (Sample.userMessage 0 "generate ttbar"
                                   (VBool true)))
                          Sample.editing))
                (Resolved 500 JsonNull) Hfail) as H.
  exact (proj1 H).
Defined.

(** X17. When the rewind request is accepted, the editor is closed and its
    draft and error emptied, the thread is marked loading, the stream is
    closed and a history reload is requested, with the in-flight mark
    still set; once that reload has ended, in whatever way, the mark is
    removed. *)
Theorem rewind_accepted (t : string) (status : Z) (json : JsonResult)
    (st : App.State) :
  t ≠ "" → t ≠ "-1" →
  ok status = true →
  let st' := App.confirmRewindEdit_resume t (Resolved status json) st in
  App.rewindEditIndex st' = VNull
  ∧ App.rewindError st' = ""
  ∧ App.rewindTextRef st' = (λ _, "") <$> App.rewindTextRef st
  ∧ App.loadingByThreadId st' !! t = Some true
  ∧ App.eventSourceRef st' = None
  ∧ App.isHistoryLoading st' = true
  ∧ App.requests st' = (App.requests st ++ [GetHistory t true])%list
  ∧ App.isRewinding st' = App.isRewinding st
  ∧ App.messages st' = App.messages st
  ∧ ∀ history,
      App.isRewinding (App.confirmRewindEdit_finish t history st') = false.
Proof.
  intros Ht Hn Hok st'. subst st'. unfold App.confirmRewindEdit_resume.
  rewrite (ok_not_409 _ Hok), Hok. cbn [negb].
  unfold App.reloadHistory_begin, App.setThreadLoading.
  rewrite (eqb_empty_false _ Ht).
  assert (String.eqb t "-1" = false) as -> by (apply String.eqb_neq; exact Hn).
  cbn [orb].
  split; [reflexivity|]. split; [reflexivity|].
  split; [cbn; destruct (App.rewindTextRef st); reflexivity|].
  split; [apply lookup_insert_eq|].
  repeat (split; [reflexivity|]).
  intros history. reflexivity.
Qed.

Lemma rewind_accepted_witness :
  App.rewindEditIndex
    (App.confirmRewindEdit_resume "t1" (Resolved 200 JsonNull)
       (App.confirmRewindEdit_begin
          (Some (Sample.userMessage 0 "generate ttbar" (VBool true)))
          Sample.editing))
  = VNull.
Proof.
  pose proof (rewind_accepted "t1" 200 JsonNull
                (App.confirmRewindEdit_begin
                   (Some (Sample.userMessage 0 "generate ttbar" (VBool true)))
                   Sample.editing)
                ltac:(discriminate) ltac:(discriminate) eq_refl) as H.
  exact (proj1 H).
Defined.

(** ** Trimming *)





(** ** The composer *)



(** ** The selected thread across reloads *)

Lemma selected_key_not_cursor_key (t : string) :
  Selection.SELECTED_THREAD_ID_KEY ≠ App.getEventCursorKey t.
Proof.
  unfold Selection.SELECTED_THREAD_ID_KEY, App.getEventCursorKey.
  intros H. cbv in H. congruence.
Qed.

(** X19. The selected thread survives a reload of the page: what the
    effect stores is what the initialiser reads back, except that no
    selection is stored as no entry, and that a thread whose id is the
    text "null" or "undefined" (or is empty) comes back as no selection.
    Storing the selection never disturbs a stored cursor. *)
Theorem selection_round_trip (st : App.State) :
  let stored := Selection.persistSelectedThreadId st in
  (∀ sel, App.selectedThreadId st = Some sel →
          sel ≠ "" → sel ≠ "null" → sel ≠ "undefined" →
          Selection.initialSelectedThreadId (App.localStorage stored)
          = Some sel)
  ∧ (App.selectedThreadId st = None
     ∨ App.selectedThreadId st = Some ""
     ∨ App.selectedThreadId st = Some "null"
     ∨ App.selectedThreadId st = Some "undefined" →
     Selection.initialSelectedThreadId (App.localStorage stored) = None)
  ∧ (∀ t, App.loadStoredCursor t stored = App.loadStoredCursor t st).
Proof.
  intros stored. subst stored.
  unfold Selection.persistSelectedThreadId, Selection.initialSelectedThreadId.
  split; [|split].
  - intros sel -> H1 H2 H3. rewrite (eqb_empty_false _ H1).
    cbn [App.localStorage App.setLocalStorage]. rewrite lookup_insert_eq.
    rewrite (eqb_empty_false _ H1).
    apply String.eqb_neq in H2, H3. rewrite H2, H3. reflexivity.
  - intros [-> | [-> | [-> | ->]]];
      cbn [String.eqb Ascii.eqb Bool.eqb andb
           App.localStorage App.setLocalStorage];
      rewrite ?lookup_delete_eq, ?lookup_insert_eq; reflexivity.
  - intros t. unfold App.loadStoredCursor.
    destruct (String.eqb t ""); [reflexivity|].
    pose proof (selected_key_not_cursor_key t) as Hk.
    destruct (App.selectedThreadId st) as [sel|];
      [destruct (String.eqb sel "")|];
      cbn [App.localStorage App.setLocalStorage];
      rewrite ?lookup_delete_ne, ?lookup_insert_ne by exact Hk; reflexivity.
Qed.

Lemma selection_round_trip_witness :
  Selection.initialSelectedThreadId
    (App.localStorage (Selection.persistSelectedThreadId Sample.loaded))
  = Some "t1".
Proof.
  exact (proj1 (selection_round_trip Sample.loaded) "t1"
           ltac:(vm_compute; reflexivity)
           ltac:(discriminate) ltac:(discriminate) ltac:(discriminate)).
Defined.

(** ** The active run *)

Lemma strictEq_true (a b : JsVal) : Js.strictEq a b = true ↔ a = b.
Proof. unfold Js.strictEq. apply bool_decide_eq_true. Qed.

(** X20. While the active-run state names a thread, whichever it is, the
    client sends neither a message nor a rewind request and enables no
    rewind control; the thread named counts as active here or as blocking
    the view, never both, and it is one of the two exactly when a run is
    active. *)
Theorem active_run_blocks_requests (st : App.State) :
  App.isAnyRunActive st = (App.isActiveHere st || App.blockNewMessages st)
  ∧ App.isActiveHere st && App.blockNewMessages st = false
  ∧ (App.isAnyRunActive st = true →
     App.rewindDisabled st = true
     ∧ (∀ prompt, App.sendMessage_begin prompt st = st)
     ∧ (∀ message, App.confirmRewindEdit_begin message st = st)
     ∧ (∀ m, MessageList.canStartRewind st m = false
             ∧ MessageList.canConfirmRewind st m = false)).
Proof.
  set (active := Js.truthy (App.activeThreadId st)).
  set (here := Js.strictEq (App.activeThreadId st)
                 (VStr (App.currentThreadKey st))).
  assert (App.isAnyRunActive st = active) as Hany by reflexivity.
  assert (App.isActiveHere st = active && here) as Hhere.
  { unfold App.isActiveHere, Js.and. fold active here.
    destruct active eqn:Ha; [reflexivity | exact Ha]. }
  assert (App.blockNewMessages st = active && negb here) as Hblock.
  { unfold App.blockNewMessages, Js.and. fold active here.
    destruct active eqn:Ha; [reflexivity | exact Ha]. }
  rewrite Hany, Hhere, Hblock.
  split; [destruct active, here; reflexivity|].
  split; [destruct active, here; reflexivity|].
  intros Ha.
  assert (App.isLoading st = true ∨ App.blockNewMessages st = true) as Hor.
  { rewrite Hblock, Ha. destruct here eqn:He; [left | right; reflexivity].
    unfold App.isLoading. rewrite Hhere, Ha. apply orb_true_r. }
  assert (App.rewindDisabled st = true) as Hd.
  { unfold App.rewindDisabled. destruct Hor as [-> | ->];
      [reflexivity | apply orb_true_r]. }
  split; [exact Hd|]. split; [|split].
  - intros p. unfold App.sendMessage_begin.
    destruct Hor as [-> | Hb]; [reflexivity|].
    rewrite Hb. destruct (App.isLoading st); reflexivity.
  - intros [m|]; [|reflexivity]. unfold App.confirmRewindEdit_begin.
    rewrite Hd. cbn [orb].
    destruct (negb (Js.isNumber (Msg.message_index m))); reflexivity.
  - intros m. unfold MessageList.canStartRewind,
      MessageList.canConfirmRewind. rewrite Hd, orb_true_r.
    split; apply andb_false_r.
Qed.

Lemma active_run_blocks_requests_witness :
  App.sendMessage_begin "hello" Sample.running = Sample.running.
Proof.
  pose proof (proj2 (proj2 (active_run_blocks_requests Sample.running))
                ltac:(vm_compute; reflexivity)) as (_ & Hs & _).
  exact (Hs "hello").
Defined.

(** X21. A broadcast of the active run replaces the client's active-run
    state by the thread and name it carries, [null] standing in for what
    it lacks, so handling the same broadcast again changes nothing. A
    broadcast that names a thread other than the one in view blocks new
    messages; one that names no thread unblocks them. Broadcasts without
    data or with unparsable data are ignored. *)
Theorem active_broadcast_sets_run (a : option Stream.Active)
    (st : App.State) :
  let threadId :=
    Js.coalesce (from_option Stream.active_thread_id VUndef a) VNull in
  let name :=
    Js.coalesce (from_option Stream.active_run_name VUndef a) VNull in
  let st' := Stream.onActiveMessage (Stream.Parsed a) st in
  App.activeRun st' = ActiveRun.mk threadId name
  ∧ Stream.onActiveMessage (Stream.Parsed a) st' = st'
  ∧ App.messages st' = App.messages st
  ∧ App.loadingByThreadId st' = App.loadingByThreadId st
  ∧ (Js.truthy threadId = true →
     threadId ≠ VStr (App.currentThreadKey st) →
     App.blockNewMessages st' = true)
  ∧ (Js.truthy threadId = false →
     App.blockNewMessages st' = false ∧ App.isActiveHere st' = false)
  ∧ Stream.onActiveMessage Stream.NoData st = st
  ∧ Stream.onActiveMessage Stream.BadJson st = st.
Proof.
  intros threadId name st'.
  assert (∀ st0, App.activeRun (Stream.onActiveMessage (Stream.Parsed a) st0)
                 = ActiveRun.mk threadId name) as Hrun.
  { intros st0. unfold Stream.onActiveMessage.
    cbn [App.activeRun App.setActiveRun]. fold threadId name.
    destruct (Js.strictEq (ActiveRun.threadId (App.activeRun st0)) threadId)
      eqn:H1; [|reflexivity].
    destruct (Js.strictEq (ActiveRun.name (App.activeRun st0)) name)
      eqn:H2; [|reflexivity].
    apply strictEq_true in H1, H2. cbn [andb].
    destruct (App.activeRun st0). cbn in H1, H2. congruence. }
  split; [apply Hrun|]. split.
  - specialize (Hrun st). fold st' in Hrun. clearbody st'.
    unfold Stream.onActiveMessage. fold threadId name.
    destruct st'. cbn in Hrun. subst. unfold App.setActiveRun.
    cbn [App.activeRun ActiveRun.threadId ActiveRun.name]. unfold Js.strictEq.
    rewrite !bool_decide_eq_true_2 by reflexivity. reflexivity.
  - split; [reflexivity|]. split; [reflexivity|].
    split; [|split; [|split; reflexivity]].
    + intros Ht Hne. subst st'.
      unfold App.blockNewMessages, App.activeThreadId, Js.and.
      rewrite Hrun. cbn [ActiveRun.threadId]. rewrite Ht.
      change (App.currentThreadKey
                (Stream.onActiveMessage (Stream.Parsed a) st))
        with (App.currentThreadKey st).
      unfold Js.strictEq. rewrite bool_decide_eq_false_2 by exact Hne.
      reflexivity.
    + intros Ht. subst st'.
      unfold App.blockNewMessages, App.isActiveHere,
        App.activeThreadId, Js.and.
      rewrite Hrun. cbn [ActiveRun.threadId]. rewrite Ht. cbn iota.
      rewrite Ht. split; reflexivity.
Qed.

Lemma active_broadcast_sets_run_witness :
  App.blockNewMessages
    (Stream.onActiveMessage
       (Stream.Parsed (Some (Stream.mkActive (VStr "t2") VUndef)))
       Sample.loaded)
  = true.
Proof.
  pose proof (active_broadcast_sets_run
                (Some (Stream.mkActive (VStr "t2") VUndef)) Sample.loaded)
    as (_ & _ & _ & _ & Hb & _).
  apply Hb; [reflexivity | vm_compute; discriminate].
Defined.

(** ** Loading flags *)

(** X22. [moveThreadLoading] hands the loading flag of one thread to
    another: if the first thread is loading (and the two ids are distinct
    and not empty), afterwards the second is loading, the first is not,
    and every other thread is as before; in every other case nothing
    changes. *)
Theorem moveThreadLoading_moves (a b : string) (st : App.State) :
  (a ≠ "" → b ≠ "" → a ≠ b →
   App.loadingByThreadId st !! a = Some true →
   let st' := App.moveThreadLoading a b st in
   App.loadingByThreadId st' !! a = None
   ∧ App.loadingByThreadId st' !! b = Some true
   ∧ ∀ c, c ≠ a → c ≠ b →
          App.loadingByThreadId st' !! c = App.loadingByThreadId st !! c)
  ∧ (a = "" ∨ b = "" ∨ a = b
     ∨ default false (App.loadingByThreadId st !! a) = false →
     App.loadingByThreadId (App.moveThreadLoading a b st)
     = App.loadingByThreadId st).
Proof.
  unfold App.moveThreadLoading. split.
  - intros Ha Hb Hab Hl. cbv zeta.
    rewrite (eqb_empty_false _ Ha), (eqb_empty_false _ Hb).
    assert (String.eqb a b = false) as -> by (apply String.eqb_neq; exact Hab).
    cbn [orb App.loadingByThreadId App.setLoadingByThreadId].
    rewrite Hl. change (negb (default false (Some true))) with false.
    cbn iota.
    split; [rewrite lookup_insert_ne, lookup_delete_eq by congruence;
            reflexivity|].
    split; [apply lookup_insert_eq|].
    intros c Hca Hcb.
    rewrite lookup_insert_ne, lookup_delete_ne by congruence. reflexivity.
  - intros H.
    destruct (String.eqb_spec a ""); [reflexivity|].
    destruct (String.eqb_spec b ""); [reflexivity|].
    destruct (String.eqb_spec a b); [reflexivity|].
    destruct H as [? | [? | [? | H]]]; try contradiction.
    cbn [orb App.loadingByThreadId App.setLoadingByThreadId].
    rewrite H. reflexivity.
Qed.

Lemma moveThreadLoading_moves_witness :
  App.loadingByThreadId (App.moveThreadLoading "t1" "t2" Sample.running)
    !! "t2" = Some true.
Proof.
  pose proof (proj1 (moveThreadLoading_moves "t1" "t2" Sample.running)
                ltac:(discriminate) ltac:(discriminate) ltac:(discriminate)
                ltac:(vm_compute; reflexivity)) as (_ & H & _).
  exact H.
Defined.

(** ** Plan badges *)

Lemma withStatus_cons (word : string) (x : PlanStep) (l : list PlanStep) :
  withStatus word (x :: l)
  = ((if String.eqb (PlanStats.statusText x) word then 1 else 0)
     + withStatus word l)%nat.
Proof.
  unfold withStatus. cbn [List.filter].
  destruct (String.eqb (PlanStats.statusText x) word); reflexivity.
Qed.

Lemma fold_count (l : list PlanStep) (c : PlanStats.Counters) :
  let c' := fold_left PlanStats.count l c in
  PlanStats.c_done c' = (PlanStats.c_done c + withStatus "done" l)%nat
  ∧ PlanStats.c_inProgress c'
    = (PlanStats.c_inProgress c + withStatus "in_progress" l)%nat
  ∧ PlanStats.c_skipped c'
    = (PlanStats.c_skipped c + withStatus "skipped" l)%nat
  ∧ PlanStats.c_failed c' = (PlanStats.c_failed c + withStatus "failed" l)%nat
  ∧ PlanStats.c_blocked c'
    = (PlanStats.c_blocked c + withStatus "blocked" l)%nat.
Proof.
  revert c. induction l as [|x l IH]; intros c.
  - cbn. unfold withStatus. cbn. repeat split; lia.
  - cbn [fold_left]. cbv zeta in *.
    destruct (IH (PlanStats.count c x)) as (H1 & H2 & H3 & H4 & H5).
    rewrite H1, H2, H3, H4, H5, !withStatus_cons.
    unfold PlanStats.count.
    destruct (String.eqb_spec (PlanStats.statusText x) "done") as [E|_];
      [rewrite ?E; cbn; repeat split; lia|].
    destruct (String.eqb_spec (PlanStats.statusText x) "in_progress") as [E|_];
      [rewrite ?E; cbn; repeat split; lia|].
    destruct (String.eqb_spec (PlanStats.statusText x) "skipped") as [E|_];
      [rewrite ?E; cbn; repeat split; lia|].
    destruct (String.eqb_spec (PlanStats.statusText x) "failed") as [E|_];
      [rewrite ?E; cbn; repeat split; lia|].
    destruct (String.eqb_spec (PlanStats.statusText x) "blocked") as [E|_];
      [rewrite ?E; cbn; repeat split; lia|].
    repeat split; lia.
Qed.

Lemma counted_split (l : list PlanStep) :
  (withStatus "done" l + withStatus "in_progress" l + withStatus "skipped" l
   + withStatus "failed" l + withStatus "blocked" l
   + List.length (List.filter (λ s, negb (PlanStats.counted s)) l))%nat
  = List.length l.
Proof.
  induction l as [|x l IH]; [reflexivity|].
  rewrite !withStatus_cons. cbn [List.filter List.length].
  unfold PlanStats.counted at 1.
  destruct (String.eqb_spec (PlanStats.statusText x) "done") as [E|_];
    [rewrite ?E; cbn; lia|].
  destruct (String.eqb_spec (PlanStats.statusText x) "in_progress") as [E|_];
    [rewrite ?E; cbn; lia|].
  destruct (String.eqb_spec (PlanStats.statusText x) "skipped") as [E|_];
    [rewrite ?E; cbn; lia|].
  destruct (String.eqb_spec (PlanStats.statusText x) "failed") as [E|_];
    [rewrite ?E; cbn; lia|].
  destruct (String.eqb_spec (PlanStats.statusText x) "blocked") as [E|_];
    [rewrite ?E; cbn; lia|].
  cbn. lia.
Qed.

(** X23. [getPlanStats] counts each step at most once: every counter is the
    number of steps whose status, read without regard to case, is its
    word; the total is the number of steps; [completedCount] is done plus
    skipped; and the five counters fall short of the total by exactly the
    steps whose status is none of the five words (pending, missing or
    unknown). *)
Theorem getPlanStats_accounts (plan : option Plan) :
  let stats := PlanStats.getPlanStats plan in
  let steps := stepsOf plan in
  PlanStats.steps stats = steps
  ∧ PlanStats.total stats = List.length steps
  ∧ PlanStats.doneCount stats = withStatus "done" steps
  ∧ PlanStats.inProgressCount stats = withStatus "in_progress" steps
  ∧ PlanStats.skippedCount stats = withStatus "skipped" steps
  ∧ PlanStats.failedCount stats = withStatus "failed" steps
  ∧ PlanStats.blockedCount stats = withStatus "blocked" steps
  ∧ PlanStats.completedCount stats
    = (PlanStats.doneCount stats + PlanStats.skippedCount stats)%nat
  ∧ (PlanStats.doneCount stats + PlanStats.inProgressCount stats
     + PlanStats.skippedCount stats + PlanStats.failedCount stats
     + PlanStats.blockedCount stats
     + List.length (List.filter (λ s, negb (PlanStats.counted s)) steps))%nat
    = PlanStats.total stats.
Proof.
  intros stats steps. subst stats. unfold PlanStats.getPlanStats.
  fold steps. cbn [PlanStats.steps PlanStats.total PlanStats.doneCount
                   PlanStats.inProgressCount PlanStats.skippedCount
                   PlanStats.failedCount PlanStats.blockedCount
                   PlanStats.completedCount].
  destruct (fold_count steps (PlanStats.mkCounters 0 0 0 0 0))
    as (H1 & H2 & H3 & H4 & H5).
  cbv zeta in *. cbn [PlanStats.c_done PlanStats.c_inProgress
                      PlanStats.c_skipped PlanStats.c_failed
                      PlanStats.c_blocked Nat.add] in *.
  rewrite H1, H2, H3, H4, H5.
  repeat (split; [reflexivity|]). apply counted_split.
Qed.





(** ** Text shown to the user *)









(** ** Plan deltas along the message list *)







(** X28. Along the message list each plan-bearing message is compared with
    the nearest plan-bearing message before it, the messages without a
    plan in between being passed over: its [plan_update_steps] is the
    delta of those two snapshots. The first plan-bearing message has
    nothing to be compared with and gets the empty delta. *)
Theorem decoratedMessages_deltas (Date_parse : string → option Z)
    (pre mid post : list Msg.t) (m1 m2 : Msg.t) :
  (Forall (λ m, planBearing m = false) pre →
   planBearing m1 = true →
   decoratedMessages Date_parse (pre ++ m1 :: post) !! List.length pre
   = Some (withPlanUpdates m1 []))
  ∧ (planBearing m1 = true →
     planBearing m2 = true →
     Forall (λ m, planBearing m = false) mid →
     decoratedMessages Date_parse (pre ++ m1 :: mid ++ m2 :: post)
       !! (List.length pre + S (List.length mid))%nat
     = Some (withPlanUpdates m2
               (planDelta Date_parse
                  (plan (addContentOf m1)) (plan_meta_data (addContentOf m1))
                  (plan (addContentOf m2))
                  (plan_meta_data (addContentOf m2))))).
Proof.
  split.
  - apply decoratedMessages_first.
  - apply decoratedMessages_delta.
Qed.

Lemma decoratedMessages_deltas_witness :
  decoratedMessages Sample.Date_parse
    ([Sample2.question] ++ Sample2.planned
     :: [Sample2.question] ++ Sample2.updated :: []) !! 3%nat
  = Some (withPlanUpdates Sample2.updated
            (planDelta Sample.Date_parse Sample.prevPlanB Sample.prevMetaB
               Sample.planB Sample.metaB)).
Proof.
  apply (proj2 (decoratedMessages_deltas Sample.Date_parse
                  [Sample2.question] [Sample2.question] []
                  Sample2.planned Sample2.updated)).
  - reflexivity.
  - reflexivity.
  - repeat constructor.
Defined.

(** ** Grouping of agent traces *)

Lemma takeTraces_spec (a : JsVal) (l : list Grouping.Entry) :
  l = (fst (Grouping.takeTraces a l) ++ snd (Grouping.takeTraces a l))%list
  ∧ Forall (λ m, Grouping.isTraceOf a m = true) (fst (Grouping.takeTraces a l))
  ∧ (∀ m, head l = Some m → Grouping.isTraceOf a m = true →
          fst (Grouping.takeTraces a l) ≠ [])
  ∧ (∀ m, head l = Some m → Grouping.isTraceOf a m = false →
          Grouping.takeTraces a l = ([], l)).
Proof.
  induction l as [|x l (IH1 & IH2 & _)].
  - cbn. repeat split; [constructor | discriminate..].
  - cbn [Grouping.takeTraces head].
    destruct (Grouping.isTraceOf a x) eqn:Hx.
    + destruct (Grouping.takeTraces a l) as [t r]. cbn [fst snd] in *.
      split; [cbn; congruence|]. split; [constructor; assumption|].
      split; [discriminate|]. intros m [= <-]. congruence.
    + cbn [fst snd app]. split; [reflexivity|]. split; [constructor|].
      split; [|reflexivity]. intros m [= <-]. congruence.
Qed.

Lemma takeMain_spec (a : JsVal) (l : list Grouping.Entry) :
  l = (Grouping.optionList (fst (Grouping.takeMain a l))
       ++ snd (Grouping.takeMain a l))%list
  ∧ (∀ m, fst (Grouping.takeMain a l) = Some m →
          Grouping.isMainOf a m = true)
  ∧ (∀ m, head l = Some m → Grouping.isMainOf a m = true →
          Grouping.takeMain a l = (Some m, tail l)).
Proof.
  destruct l as [|x l]; cbn [Grouping.takeMain head tail].
  - repeat split; discriminate.
  - destruct (Grouping.isMainOf a x) eqn:Hx; cbn [fst snd Grouping.optionList].
    + split; [reflexivity|]. split; [intros m [= <-]; exact Hx|].
      intros m [= <-] _. reflexivity.
    + split; [reflexivity|]. split; [discriminate|].
      intros m [= <-]. congruence.
Qed.

Lemma trace_member (a : JsVal) (m : Grouping.Entry) :
  Grouping.isTraceOf a m = true →
  Msg.name (Grouping.msg m) = a ∧ Grouping.hasTrace m = true.
Proof.
  unfold Grouping.isTraceOf. intros H. apply andb_true_iff in H as [H1 H2].
  apply strictEq_true in H1. auto.
Qed.

Lemma main_member (a : JsVal) (m : Grouping.Entry) :
  Grouping.isMainOf a m = true →
  Msg.name (Grouping.msg m) = a ∧ Grouping.hasTrace m = false.
Proof.
  unfold Grouping.isMainOf. intros H. apply andb_true_iff in H as [H1 H2].
  apply strictEq_true in H1. apply negb_true_iff in H2. auto.
Qed.

(** Each iteration of the outer loop consumes at least one message; with
    a unit of fuel per message the loop accounts for all of them. *)
Lemma groupLoop_spec (fuel : nat) :
  ∀ l : list Grouping.Entry,
    (List.length l ≤ fuel)%nat →
    ∃ segments : list (list Grouping.Entry),
      List.concat segments = l
      ∧ Forall2 (λ item segment,
                   Grouping.covers item segment ∧ Grouping.wellGrouped item)
          (Grouping.groupLoop fuel l) segments.
Proof.
  induction fuel as [|fuel IH]; intros l Hlen.
  - destruct l; [|cbn in Hlen; lia]. exists []. split; constructor.
  - destruct l as [|m tail]; [exists []; split; constructor|].
    cbn [Grouping.groupLoop]. cbn [List.length] in Hlen.
    destruct (Grouping.opensGroup m) eqn:Hopen.
    + set (a := Js.or (Grouping.prop Grouping.recipient m) (VStr "")).
      destruct (takeTraces_spec a tail) as (Ht1 & Ht2 & _).
      destruct (Grouping.takeTraces a tail) as [traces left1].
      cbn [fst snd] in Ht1, Ht2.
      destruct (takeMain_spec a left1) as (Hm1 & Hm2 & _).
      destruct (Grouping.takeMain a left1) as [main left2].
      cbn [fst snd] in Hm1, Hm2.
      destruct (IH left2) as (segs & Hcat & Hall).
      { subst tail left1. rewrite !length_app in Hlen. lia. }
      exists ((m :: traces ++ Grouping.optionList main) :: segs)%list.
      split.
      * cbn [List.concat]. rewrite Hcat, Ht1, Hm1. cbn [app].
        rewrite <- app_assoc. reflexivity.
      * constructor; [|exact Hall]. split.
        -- cbn [Grouping.covers]. exists m. repeat split. exact Hopen.
        -- cbn [Grouping.wellGrouped]. split.
           { unfold Grouping.opensGroup in Hopen.
             apply andb_true_iff in Hopen as [_ Hopen]. exact Hopen. }
           split.
           { eapply Forall_impl; [exact Ht2|]. intros x.
             apply trace_member. }
           { intros x ->. apply main_member. apply Hm2. reflexivity. }
    + destruct (Grouping.isAgentName (Msg.name (Grouping.msg m))) eqn:Hagent.
      * set (a := Msg.name (Grouping.msg m)).
        destruct (takeTraces_spec a (m :: tail)) as (Ht1 & Ht2 & Ht3 & Ht4).
        specialize (Ht3 m eq_refl). specialize (Ht4 m eq_refl).
        destruct (Grouping.takeTraces a (m :: tail)) as [traces left1] eqn:Htt.
        cbn [fst snd] in Ht1, Ht2, Ht3.
        destruct (takeMain_spec a left1) as (Hm1 & Hm2 & Hm3).
        destruct (Grouping.takeMain a left1) as [main left2] eqn:Hmm.
        cbn [fst snd] in Hm1, Hm2.
        assert ((traces ++ Grouping.optionList main)%list ≠ []) as Hne.
        { destruct (Grouping.isTraceOf a m) eqn:Htr.
          - specialize (Ht3 eq_refl). destruct traces; [contradiction|].
            discriminate.
          - specialize (Ht4 eq_refl). injection Ht4 as -> ->.
            assert (Grouping.isMainOf a m = true) as Hmain.
            { unfold Grouping.isMainOf, Grouping.isTraceOf in *. subst a.
              unfold Js.strictEq in *.
              rewrite bool_decide_eq_true_2 in * by reflexivity.
              cbn [andb] in *. rewrite Htr. reflexivity. }
            specialize (Hm3 m eq_refl Hmain). injection Hm3 as -> _.
            discriminate. }
        destruct (IH left2) as (segs & Hcat & Hall).
        { assert (List.length (m :: tail)
                  = List.length (traces ++ Grouping.optionList main)
                    + List.length left2)%nat as Hl.
          { rewrite Ht1 at 1. rewrite Hm1 at 1.
            rewrite !length_app. lia. }
          cbn [List.length] in Hl.
          destruct (traces ++ Grouping.optionList main)%list;
            [contradiction|]. cbn [List.length] in Hl. lia. }
        exists ((traces ++ Grouping.optionList main) :: segs)%list.
        split.
        -- cbn [List.concat]. rewrite Hcat, Ht1, Hm1.
           rewrite <- app_assoc. reflexivity.
        -- constructor; [|exact Hall]. split.
           ++ cbn [Grouping.covers]. split; [reflexivity | exact Hne].
           ++ cbn [Grouping.wellGrouped]. split; [exact Hagent|]. split.
              { eapply Forall_impl; [exact Ht2|]. intros x.
                apply trace_member. }
              { intros x ->. apply main_member. apply Hm2. reflexivity. }
      * destruct (IH tail) as (segs & Hcat & Hall); [lia|].
        exists ([m] :: segs). split; [cbn [List.concat app]; congruence|].
        constructor; [|exact Hall]. split; [reflexivity|].
        split; assumption.
Qed.

(** X29. Grouping loses and repeats nothing: the items of
    [processedMessages], read in order, stand for consecutive stretches
    of the message list that together make up the whole list. A plain
    item stands for its one message, a group for its traces followed by
    its main message, and a group with an instruction also for the
    orchestrator message in front of them from which the instruction was
    read. *)
Theorem processedMessages_covers_all (decorated : list Grouping.Entry) :
  ∃ segments : list (list Grouping.Entry),
    List.concat segments = decorated
    ∧ Forall2 Grouping.covers (Grouping.processedMessages decorated) segments.
Proof.
  destruct (groupLoop_spec (List.length decorated) decorated ltac:(lia))
    as (segs & Hcat & Hall).
  exists segs. split; [exact Hcat|].
  eapply Forall2_impl; [exact Hall|]. intros item seg [H _]. exact H.
Qed.

Lemma covered_member (items : list Grouping.Item)
    (segments : list (list Grouping.Entry)) (m : Grouping.Entry) :
  Forall2 (λ item segment,
             Grouping.covers item segment ∧ Grouping.wellGrouped item)
    items segments →
  m ∈ List.concat segments →
  ∃ item segment,
    item ∈ items ∧ m ∈ segment
    ∧ Grouping.covers item segment ∧ Grouping.wellGrouped item.
Proof.
  induction 1 as [|item segment items segments Hhead _ IH];
    cbn [List.concat]; intros Hin.
  - inversion Hin.
  - apply elem_of_app in Hin as [Hin | Hin].
    + exists item, segment. split; [left|]. tauto.
    + destruct (IH Hin) as (item' & segment' & Hi & Hrest).
      exists item', segment'. split; [right; exact Hi | exact Hrest].
Qed.

Lemma user_is_no_agent : Grouping.isAgentName (VStr "user") = false.
Proof. reflexivity. Qed.

(** X30. Every group of [processedMessages] belongs to one agent: its
    name is none of user, assistant, orchestrator or empty, its traces
    are messages of that agent carrying an execution trace, and its main
    message, when present, is a message of that agent without one. A
    plain item is never the message of an agent. In particular a user
    message is always shown on its own, never folded into a group. *)
Theorem processedMessages_well_grouped (decorated : list Grouping.Entry) :
  Forall Grouping.wellGrouped (Grouping.processedMessages decorated)
  ∧ (∀ m : Grouping.Entry,
       m ∈ decorated →
       Msg.name (Grouping.msg m) = VStr "user" →
       Grouping.PlainMessage m ∈ Grouping.processedMessages decorated).
Proof.
  destruct (groupLoop_spec (List.length decorated) decorated ltac:(lia))
    as (segs & Hcat & Hall).
  fold (Grouping.processedMessages decorated) in Hall. split.
  - clear Hcat. induction Hall as [|item seg items segs' [_ Hw] _ IH];
      constructor; assumption.
  - intros m Hin Huser. rewrite <- Hcat in Hin.
    destruct (covered_member _ _ m Hall Hin)
      as (item & seg & Hitem & Hseg & Hcov & Hwell).
    destruct item as [x | agentName traces mainMessage instruction].
    + cbn in Hcov. subst seg. apply list_elem_of_singleton in Hseg.
      subst x. exact Hitem.
    + exfalso. cbn [Grouping.wellGrouped] in Hwell.
      destruct Hwell as (Hagent & Htraces & Hmain).
      assert (m ∈ (traces ++ Grouping.optionList mainMessage)%list →
              False) as Hinner.
      { intros H. apply elem_of_app in H as [H | H].
        - rewrite Forall_forall in Htraces.
          destruct (Htraces m H) as [Hname _].
          rewrite Huser in Hname. subst agentName.
          rewrite user_is_no_agent in Hagent. discriminate.
        - destruct mainMessage as [x|]; cbn in H; [|inversion H].
          apply list_elem_of_singleton in H. subst x.
          destruct (Hmain m eq_refl) as [Hname _].
          rewrite Huser in Hname. subst agentName.
          rewrite user_is_no_agent in Hagent. discriminate. }
      destruct instruction as [instruction|]; cbn [Grouping.covers] in Hcov.
      * destruct Hcov as (opener & -> & Hopen & _).
        apply elem_of_cons in Hseg as [-> | Hseg]; [|exact (Hinner Hseg)].
        unfold Grouping.opensGroup in Hopen. rewrite Huser in Hopen.
        discriminate.
      * destruct Hcov as [-> _]. exact (Hinner Hseg).
Qed.

Lemma processedMessages_well_grouped_witness :
  Grouping.processedMessages Sample2.conversation
  = [Grouping.PlainMessage (Sample2.plain Sample2.question);
     Grouping.AgentOpGroup (VStr "plotter") [Sample2.trace]
       (Some Sample2.reply)
       (Some (Grouping.instructionOf Sample2.instruct));
     Grouping.PlainMessage
       (Sample2.plain (Sample.userMessage 4 "thanks" (VBool false)))]
  ∧ Grouping.PlainMessage (Sample2.plain Sample2.question)
    ∈ Grouping.processedMessages Sample2.conversation.
Proof.
  split.
  - reflexivity.
  - apply (proj2 (processedMessages_well_grouped Sample2.conversation)).
    + left.
    + reflexivity.
Defined.
